(** * MoodFlix: emotion normalisation, genre mapping and movie aggregation

  A shallow embedding of [emotion_model.py], [recommender.py] and the
  orchestration in [main.py], followed by the properties of the
  recommendation pipeline.

  Conventions.
  - Python [str] values are Rocq strings whose characters are the code
    points below 256.
  - Python [float] values are IEEE-754 binary64 numbers, taken from
    [SpecFloat] with precision 53 and maximal exponent 1024; a decimal
    literal such as [0.8] is the correctly rounded quotient [8 / 10].
  - Python [int] values are [Z]; [//] is [Z.div] (both round down).
  - Insertion-ordered dictionaries that are iterated are association
    lists; dictionaries that are only looked up are [gmap]s.
  - The classifier, the catalogue and the random source are external:
    they are functions on an abstract [World] that is threaded through
    every call, and every call is recorded in a trace. *)

From Stdlib Require Import ZArith List Ascii String Permutation Lia.
From Stdlib Require Import SpecFloat.
From stdpp Require Import base option list strings gmap.

Local Open Scope string_scope.
Local Open Scope Z_scope.
Local Open Scope list_scope.

(* ------------------------------------------------------------------ *)
(** ** Python floats *)

Module PyFloat.

Definition float : Type := spec_float.

Definition prec : Z := 53.
Definition emax : Z := 1024.

(** An integer as a binary64 number (exact below 2^53). *)
Definition of_Z (z : Z) : float := binary_normalize prec emax z 0 false.

(** The binary64 number a decimal literal [num / den] denotes. *)
Definition decimal (num den : Z) : float :=
  SFdiv prec emax (of_Z num) (of_Z den).

(** [x < y] and [x >= y] of Python; both are [False] on NaN. *)
Definition lt (x y : float) : bool := SFltb x y.
Definition ge (x y : float) : bool := SFleb y x.

Definition is_nan (x : float) : bool :=
  match x with S754_nan => true | _ => false end.

(** Every number that is not NaN has a key in [Z * Z * Z] such that
    comparing two numbers is comparing their keys lexicographically:
    the first component separates the infinities, the two signs and
    zero; the other two order the finite numbers of one sign. *)
Definition key (x : float) : Z * Z * Z :=
  match x with
  | S754_nan => (0, 0, 0)
  | S754_zero _ => (0, 0, 0)
  | S754_infinity true => (-2, 0, 0)
  | S754_infinity false => (2, 0, 0)
  | S754_finite true m e => (-1, - e, Z.neg m)
  | S754_finite false m e => (1, e, Z.pos m)
  end.

Definition lex_compare (a b : Z * Z * Z) : comparison :=
  let '(a1, a2, a3) := a in
  let '(b1, b2, b3) := b in
  match a1 ?= b1 with
  | Eq => match a2 ?= b2 with
          | Eq => a3 ?= b3
          | c => c
          end
  | c => c
  end.

Definition lex_lt (a b : Z * Z * Z) : Prop :=
  let '(a1, a2, a3) := a in
  let '(b1, b2, b3) := b in
  a1 < b1 \/ (a1 = b1 /\ (a2 < b2 \/ (a2 = b2 /\ a3 < b3))).

End PyFloat.

Import PyFloat.

Notation "0.0" := (decimal 0 1) (only parsing).
Notation "0.4" := (decimal 4 10) (only parsing).
Notation "0.6" := (decimal 6 10) (only parsing).
Notation "0.8" := (decimal 8 10) (only parsing).

(* ------------------------------------------------------------------ *)
(** ** Python strings *)

Module PyStr.

(** [str.isspace] of a single character. *)
Definition isspace (c : ascii) : bool :=
  let n := N_of_ascii c in
  ((9 <=? n) && (n <=? 13) || (28 <=? n) && (n <=? 32)
   || (n =? 133) || (n =? 160))%N.

(** [str.lower] of a single character: the ASCII capitals and the
    Latin-1 capitals move up by 32, everything else stays. *)
Definition lower_char (c : ascii) : ascii :=
  let n := N_of_ascii c in
  if ((65 <=? n) && (n <=? 90)
      || (192 <=? n) && (n <=? 222) && negb (n =? 215))%N
  then ascii_of_N (n + 32)
  else c.

Fixpoint lower (s : string) : string :=
  match s with
  | EmptyString => EmptyString
  | String c s' => String (lower_char c) (lower s')
  end.

Fixpoint lstrip (s : string) : string :=
  match s with
  | EmptyString => EmptyString
  | String c s' => if isspace c then lstrip s' else s
  end.

Fixpoint rstrip (s : string) : string :=
  match s with
  | EmptyString => EmptyString
  | String c s' =>
      match rstrip s' with
      | EmptyString => if isspace c then EmptyString else String c EmptyString
      | r => String c r
      end
  end.

(** [s.strip()] *)
Definition strip (s : string) : string := rstrip (lstrip s).

(** Truth value of a string: [not s] holds exactly for the empty one. *)
Definition truthy (s : string) : bool :=
  match s with EmptyString => false | _ => true end.

(** Every character is white space (the empty string included). *)
Fixpoint blank (s : string) : bool :=
  match s with
  | EmptyString => true
  | String c s' => isspace c && blank s'
  end.

End PyStr.

Import PyStr.

(* ------------------------------------------------------------------ *)
(** ** Python lists and dictionaries *)

(** [l[:n]] *)
Definition slice_to {A : Type} (l : list A) (n : Z) : list A :=
  if 0 <=? n then firstn (Z.to_nat n) l
  else firstn (Z.to_nat (Z.of_nat (length l) + n)) l.

(** [d.get(k, default)] on a dictionary that is only looked up. *)
Definition dict_get {V : Type} (d : gmap string V) (k : string) (dflt : V) : V :=
  match d !! k with
  | Some v => v
  | None => dflt
  end.

(** [k in d] on an insertion-ordered dictionary. *)
Definition has_key {V : Type} (k : string) (d : list (string * V)) : bool :=
  existsb (fun kv => String.eqb (fst kv) k) d.

(** [list(d.values())]: the values in insertion order. *)
Definition dict_values {V : Type} (d : list (string * V)) : list V :=
  map snd d.
(* ------------------------------------------------------------------ *)
(** ** Data *)

(** The dictionary built by [MovieRecommender.get_movie_details]. *)
Record Movie : Type := {
  title : string;
  year : string;
  genre : string;
  director : string;
  plot : string;
  poster : string;
  imdb_rating : string;
  imdb_id : string;
  link : string
}.

(** One prediction of the text classifier: [{'label': .., 'score': ..}]. *)
Record Prediction : Type := {
  label : string;
  score : float
}.

(** What [self.classifier(text)] hands back: a list of predictions or
    a single one. *)
Inductive ClassifierValue : Type :=
| PredictionList (ps : list Prediction)
| PredictionOne (p : Prediction).

(** A call either returns a value or raises an exception. *)
Inductive Outcome (A : Type) : Type :=
| Returned (a : A)
| Raised.

Arguments Returned {A} a.
Arguments Raised {A}.

(** The dictionary returned by [EmotionDetector.detect_emotion]. *)
Record EmotionResult : Type := {
  emotion : string;
  confidence : float;
  raw_prediction : option Prediction;
  normalized_emotion : string
}.

(** The dictionary returned by
    [MoodMovieRecommendationAgent.analyze_mood_and_recommend]. *)
Record Analysis : Type := {
  emotion_analysis : EmotionResult;
  detected_emotion : string;
  analysis_confidence : float;
  confidence_level : string;
  recommendations : list Movie;
  genres : list string
}.

(** What the three modules print.  Each constructor stands for the
    [print] statements of one place in the source, taken together, and
    carries the values they format. *)
Inductive Line : Type :=
| MsgDetectionError
| MsgFindingForEmotion (emotion : string)
| MsgMatchingGenres (genres : list string)
| MsgFound (n : nat)
| MsgAnalyzing (user_input : string)
| MsgDetected (emotion : string) (confidence : float) (level : string)
| MsgLowConfidence
| MsgFindingForMood (emotion : string)
| MsgNoMovies
| MsgResults (movies : list Movie) (emotion : string).

(** What a run does to the outside, in order. *)
Inductive Event : Type :=
| Classified (text : string)
| Searched (genre : string) (limit : Z)
| Shuffled (pool : list Movie)
| Printed (line : Line).

(* ------------------------------------------------------------------ *)
(** ** The outside world

    [classifier] is the HuggingFace pipeline held by the detector.
    [search_movies_by_genre] is the catalogue search of the
    recommender: its body talks to the OMDb service and catches every
    exception, so a call always returns a list.  [shuffle] is
    [random.shuffle]. *)

Class External (World : Type) : Type := {
  classifier : string -> World -> Outcome ClassifierValue * World;
  search_movies_by_genre : string -> Z -> World -> list Movie * World;
  shuffle : list Movie -> World -> list Movie * World
}.

(** A program reads and changes the world and emits events. *)
Definition Prog (World A : Type) : Type := World -> A * list Event * World.

Global Instance prog_ret {World : Type} : MRet (Prog World) :=
  fun A (a : A) w => (a, [], w).

Global Instance prog_bind {World : Type} : MBind (Prog World) :=
  fun A B (k : A -> Prog World B) (m : Prog World A) w =>
    let '(a, t1, w1) := m w in
    let '(b, t2, w2) := k a w1 in
    (b, t1 ++ t2, w2).

Definition print {World : Type} (l : Line) : Prog World unit :=
  fun w => (tt, [Printed l], w).

Definition value {World A : Type} (r : A * list Event * World) : A := r.1.1.
Definition events {World A : Type} (r : A * list Event * World) : list Event :=
  r.1.2.
Definition world_after {World A : Type} (r : A * list Event * World) : World :=
  r.2.

Section Program.

Context {World : Type} {ext : External World}.

Definition call_classifier (text : string)
  : Prog World (Outcome ClassifierValue) :=
  fun w => let '(o, w') := classifier text w in (o, [Classified text], w').

Definition call_search (genre : string) (limit : Z)
  : Prog World (list Movie) :=
  fun w =>
    let '(ms, w') := search_movies_by_genre genre limit w in
    (ms, [Searched genre limit], w').

Definition call_shuffle (l : list Movie) : Prog World (list Movie) :=
  fun w => let '(l', w') := shuffle l w in (l', [Shuffled l], w').

(* ------------------------------------------------------------------ *)
(** ** emotion_model.py *)

(** The table in [EmotionDetector._normalize_emotion]. *)
Definition emotion_mapping : gmap string string :=
  list_to_map [
    ("joy", "joy");
    ("happiness", "joy");
    ("love", "love");
    ("positive", "joy");
    ("sadness", "sadness");
    ("grief", "sadness");
    ("negative", "sadness");
    ("anger", "anger");
    ("rage", "anger");
    ("frustration", "anger");
    ("fear", "fear");
    ("anxiety", "fear");
    ("worry", "fear");
    ("surprise", "surprise");
    ("amazement", "surprise");
    ("neutral", "neutral");
    ("disgust", "neutral");
    ("anticipation", "surprise");
    ("trust", "joy")
  ].

(** [EmotionDetector._normalize_emotion] *)
Definition _normalize_emotion (emotion_label : string) : string :=
  dict_get emotion_mapping emotion_label "neutral".

(** [EmotionDetector.get_emotion_confidence_level] *)
Definition get_emotion_confidence_level (confidence : float) : string :=
  if ge confidence 0.8 then "high"
  else if ge confidence 0.6 then "medium"
  else if ge confidence 0.4 then "low"
  else "very_low".

(** The dictionary returned for blank input and after an exception. *)
Definition neutral_result : EmotionResult :=
  {| emotion := "neutral";
     confidence := 0.0;
     raw_prediction := None;
     normalized_emotion := "neutral" |}.

(** [prediction[0] if isinstance(prediction, list) else prediction];
    indexing the empty list raises. *)
Definition top_of (prediction : ClassifierValue) : Outcome Prediction :=
  match prediction with
  | PredictionList [] => Raised
  | PredictionList (p :: _) => Returned p
  | PredictionOne p => Returned p
  end.

(** [EmotionDetector.detect_emotion] *)
Definition detect_emotion (text : string) : Prog World EmotionResult :=
  if negb (truthy text) || negb (truthy (strip text)) then
    mret neutral_result
  else
    prediction ← call_classifier (strip text);
    match prediction with
    | Raised => print MsgDetectionError ;; mret neutral_result
    | Returned prediction =>
        match top_of prediction with
        | Raised => print MsgDetectionError ;; mret neutral_result
        | Returned top_prediction =>
            let emotion_label := lower (label top_prediction) in
            let confidence := score top_prediction in
            let normalized_emotion := _normalize_emotion emotion_label in
            mret {| emotion := emotion_label;
                   confidence := confidence;
                   raw_prediction := Some top_prediction;
                   normalized_emotion := normalized_emotion |}
        end
    end.

(* ------------------------------------------------------------------ *)
(** ** recommender.py *)

(** [self.emotion_genre_mapping] *)
Definition emotion_genre_mapping : gmap string (list string) :=
  list_to_map [
    ("joy", ["Comedy"; "Romance"; "Family"; "Animation"; "Musical"]);
    ("love", ["Romance"; "Comedy"; "Family"; "Drama"]);
    ("sadness", ["Drama"; "Animation"; "Biography"; "Romance"]);
    ("anger", ["Comedy"; "Adventure"; "Action"; "Thriller"]);
    ("fear", ["Family"; "Fantasy"; "Adventure"; "Animation"]);
    ("surprise", ["Mystery"; "Adventure"; "Thriller"; "Sci-Fi"]);
    ("neutral", ["Action"; "Adventure"; "Comedy"; "Drama"])
  ].

(** [MovieRecommender.get_genres_for_emotion] *)
Definition get_genres_for_emotion (emotion : string) : list string :=
  dict_get emotion_genre_mapping emotion (emotion_genre_mapping !!! "neutral").

(** [max(1, num_recommendations // len(genres)) + 1] *)
Definition movies_per_genre (num_recommendations : Z) (genres : list string)
  : Z :=
  Z.max 1 (num_recommendations / Z.of_nat (length genres)) + 1.

(** The loop over [genres] that extends [all_movies]. *)
Fixpoint search_each (genres : list string) (limit : Z)
  (all_movies : list Movie) : Prog World (list Movie) :=
  match genres with
  | [] => mret all_movies
  | genre :: rest =>
      genre_movies ← call_search genre limit;
      search_each rest limit (all_movies ++ genre_movies)
  end.

(** The loop over [all_movies] that fills [unique_movies]. *)
Fixpoint remove_duplicates (all_movies : list Movie)
  (unique_movies : list (string * Movie)) : list (string * Movie) :=
  match all_movies with
  | [] => unique_movies
  | movie :: rest =>
      if negb (has_key (imdb_id movie) unique_movies)
      then remove_duplicates rest (unique_movies ++ [(imdb_id movie, movie)])
      else remove_duplicates rest unique_movies
  end.

(** [MovieRecommender.recommend_movies] *)
Definition recommend_movies (emotion : string) (num_recommendations : Z)
  : Prog World (list Movie) :=
  print (MsgFindingForEmotion emotion) ;;
  let genres := get_genres_for_emotion emotion in
  print (MsgMatchingGenres genres) ;;
  all_movies ← search_each genres (movies_per_genre num_recommendations genres) [];
  let unique_movies := remove_duplicates all_movies [] in
  let unique_movies_list := dict_values unique_movies in
  unique_movies_list ← call_shuffle unique_movies_list;
  let recommendations := slice_to unique_movies_list num_recommendations in
  print (MsgFound (length recommendations)) ;;
  mret recommendations.

(** What one call of [recommend_movies] works on: the records gathered
    from the genre searches, and what is left of them once duplicates
    are removed. *)
Definition gathered (emotion : string) (num_recommendations : Z) (w : World)
  : list Movie :=
  let genres := get_genres_for_emotion emotion in
  value (search_each genres (movies_per_genre num_recommendations genres) [] w).

Definition unique_pool (emotion : string) (num_recommendations : Z) (w : World)
  : list Movie :=
  dict_values (remove_duplicates (gathered emotion num_recommendations w) []).

(* ------------------------------------------------------------------ *)
(** ** main.py *)

(** [MoodMovieRecommendationAgent.analyze_mood_and_recommend].  The
    [except] branch around the recommender is not modelled: nothing in
    [recommend_movies] raises on records of the shape above. *)
Definition analyze_mood_and_recommend (user_input : string)
  (num_recommendations : Z) : Prog World (option Analysis) :=
  print (MsgAnalyzing user_input) ;;
  emotion_result ← detect_emotion user_input;
  let detected_emotion := normalized_emotion emotion_result in
  let confidence := confidence emotion_result in
  let confidence_level := get_emotion_confidence_level confidence in
  print (MsgDetected detected_emotion confidence confidence_level) ;;
  (if lt confidence 0.4 then print MsgLowConfidence else mret tt) ;;
  print (MsgFindingForMood detected_emotion) ;;
  recommendations ← recommend_movies detected_emotion num_recommendations;
  match recommendations with
  | [] => print MsgNoMovies ;; mret None
  | _ :: _ =>
      print (MsgResults recommendations detected_emotion) ;;
      mret (Some {| emotion_analysis := emotion_result;
                   detected_emotion := detected_emotion;
                   analysis_confidence := confidence;
                   confidence_level := confidence_level;
                   recommendations := recommendations;
                   genres := get_genres_for_emotion detected_emotion |})
  end.

End Program.

(* ------------------------------------------------------------------ *)
(** ** The documented policy, as the specification lists it *)

(** Raw labels grouped by the canonical emotion they collapse to. *)
Definition policy_table : list (string * string) :=
  [ ("joy", "joy"); ("happiness", "joy"); ("positive", "joy");
    ("trust", "joy");
    ("love", "love");
    ("sadness", "sadness"); ("grief", "sadness"); ("negative", "sadness");
    ("anger", "anger"); ("rage", "anger"); ("frustration", "anger");
    ("fear", "fear"); ("anxiety", "fear"); ("worry", "fear");
    ("surprise", "surprise"); ("amazement", "surprise");
    ("anticipation", "surprise");
    ("neutral", "neutral"); ("disgust", "neutral") ].

(** Two characters are the same letter when they are equal or one is
    an ASCII capital and the other its small letter. *)
Definition same_letter (a b : ascii) : bool :=
  let x := N_of_ascii a in
  let y := N_of_ascii b in
  ((x =? y)
   || ((65 <=? x) && (x <=? 90) && (y =? x + 32))
   || ((65 <=? y) && (y <=? 90) && (x =? y + 32)))%N.

(** Two labels match when they differ in the case of letters only. *)
Fixpoint matches_ignoring_case (a b : string) : bool :=
  match a, b with
  | EmptyString, EmptyString => true
  | String c a', String d b' => same_letter c d && matches_ignoring_case a' b'
  | _, _ => false
  end.

(** A small ASCII letter; a word of small ASCII letters. *)
Definition small_letter (c : ascii) : bool :=
  let n := N_of_ascii c in ((97 <=? n) && (n <=? 122))%N.

Fixpoint small_word (s : string) : bool :=
  match s with
  | EmptyString => true
  | String c s' => small_letter c && small_word s'
  end.

(** The distinct catalogue identifiers among a list of records. *)
Definition distinct_ids (l : list Movie) : list string :=
  nodup string_dec (map imdb_id l).

(** The seven canonical emotions. *)
Definition canonical_emotions : list string :=
  ["joy"; "love"; "sadness"; "anger"; "fear"; "surprise"; "neutral"].

(** The search requests among the events of a run, in order. *)
Definition search_requests (t : list Event) : list (string * Z) :=
  omap (fun e => match e with Searched g l => Some (g, l) | _ => None end) t.

(** Whether the low-confidence advisory is among the events of a run. *)
Definition advisory_flagged (t : list Event) : bool :=
  existsb (fun e => match e with Printed MsgLowConfidence => true | _ => false end)
          t.

(** The line that closes a run of the orchestrator. *)
Definition closing_line (recommendations : list Movie) (emotion : string)
  : Event :=
  match recommendations with
  | [] => Printed MsgNoMovies
  | _ :: _ => Printed (MsgResults recommendations emotion)
  end.

(** The first record of [l] with catalogue identifier [id]. *)
Definition first_with_id (id : string) (l : list Movie) : option Movie :=
  find (fun m => String.eqb (imdb_id m) id) l.

(* ------------------------------------------------------------------ *)
(** ** A small concrete world, used to run the model *)

Module Stub.

Record World : Type := {
  reply : Outcome ClassifierValue;
  shelf : string -> list Movie;
  calls : nat
}.

Definition tick (w : World) : World :=
  {| reply := reply w; shelf := shelf w; calls := S (calls w) |}.

(** The classifier gives its canned reply, the catalogue the first
    [limit] records of the genre's shelf, the shuffle the reversal. *)
Definition external : External World :=
  {| classifier := fun _ w => (reply w, tick w);
     search_movies_by_genre :=
       fun genre limit w => (firstn (Z.to_nat limit) (shelf w genre), tick w);
     shuffle := fun l w => (rev l, tick w) |}.

Definition movie (id name : string) : Movie :=
  {| title := name; year := "1999"; genre := "N/A"; director := "N/A";
     plot := "N/A"; poster := "N/A"; imdb_rating := "N/A";
     imdb_id := id; link := "https://www.imdb.com/title/" ++ id ++ "/" |}.

(** Comedy and Romance both list [tt001], under different titles. *)
Definition overlapping (genre : string) : list Movie :=
  if String.eqb genre "Comedy" then
    [movie "tt001" "First title"; movie "tt002" "Second film"]
  else if String.eqb genre "Romance" then
    [movie "tt001" "Other title"; movie "tt003" "Third film"]
  else [].

Definition empty_shelf (genre : string) : list Movie := [].

Definition says (l : string) (s : float) : Outcome ClassifierValue :=
  Returned (PredictionList [ {| label := l; score := s |} ]).

Definition happy : World :=
  {| reply := says "JOY" (decimal 92 100); shelf := overlapping; calls := 0 |}.

Definition unsure : World :=
  {| reply := says "neutral" (decimal 5 10); shelf := overlapping; calls := 0 |}.

Definition vague : World :=
  {| reply := says "fear" (decimal 39 100); shelf := overlapping; calls := 0 |}.

Definition broken : World :=
  {| reply := Raised; shelf := empty_shelf; calls := 0 |}.

End Stub.

(* ------------------------------------------------------------------ *)
(** ** The system around the pipeline

    The remaining code of the three modules talks to the catalogue
    service, the credentials file, the model loader and the terminal.
    These are functions on the world as well; what they are asked is
    recorded as system events. *)

(** One entry of [data['Search']]; the identifier may be missing. *)
Record Hit : Type := {
  json_imdbID : option string
}.

(** The JSON object the catalogue service answers with, as far as the
    code reads it: [None] stands for a key that is absent. *)
Record Payload : Type := {
  json_Response : option string;
  json_Search : option (list Hit);
  json_Title : option string;
  json_Year : option string;
  json_Genre : option string;
  json_Director : option string;
  json_Plot : option string;
  json_Poster : option string;
  json_imdbRating : option string
}.

(** The [params] of the two kinds of request:
    [{'apikey': k, 's': keyword, 'type': 'movie', 'page': 1}] and
    [{'apikey': k, 'i': imdb_id, 'plot': 'short'}]. *)
Inductive Query : Type :=
| ByKeyword (apikey s : string)
| ById (apikey i : string).

(** The JSON object in the credentials file. *)
Record Credentials : Type := {
  json_omdb_api_key : option string;
  json_api_base_url : option string
}.

(** [open] and [json.load] on the credentials file. *)
Inductive FileOutcome : Type :=
| FileNotFound
| FileUnreadable
| FileParsed (credentials : Credentials).

(** [input(prompt)]: a line, Ctrl-C, or another exception such as the
    end of the input. *)
Inductive InputOutcome : Type :=
| InputLine (s : string)
| InputInterrupted
| InputFailed.

(** The two prompts of the interactive mode. *)
Inductive Prompt : Type :=
| PromptFeeling
| PromptNone.

(** What the remaining code prints, by place in the source. *)
Inductive SysLine : Type :=
| MsgCredentialsLoaded
| MsgCredentialsNotFound (credentials_file : string)
| MsgCredentialsError
| MsgRecommenderReady
| MsgSearchError (genre : string)
| MsgDetailsError (imdb_id : string)
| MsgModelLoaded
| MsgModelError
| MsgInitializing
| MsgLoadingModel
| MsgLoadingRecommender
| MsgSystemReady
| MsgInitError
| MsgWelcome
| MsgGoodbye
| MsgEmptyInput
| MsgRule
| MsgMorePrompt (emotion : string)
| MsgGettingMore
| MsgReady
| MsgInterrupted
| MsgLoopError
| MsgBanner
| MsgCommandLine (user_input : string)
| MsgComplete
| MsgSystemError.

Inductive SysEvent : Type :=
| Requested (url : string) (q : Query)
| OpenedFile (path : string)
| LoadedPipeline (task model : string)
| Asked (prompt : Prompt)
| Said (line : SysLine)
| Pipeline (t : list Event).

(** The classifier object a loaded pipeline is. *)
Definition Classifier (World : Type) : Type :=
  string -> World -> Outcome ClassifierValue * World.

(** [http_get] is [requests.get] followed by [raise_for_status] and
    [json]: it raises when any of the three does.  [read_json] opens
    and parses the credentials file.  [pipeline] is the model loader of
    [transformers].  [input] and [random_shuffle] are the built-in
    [input] and [random.shuffle]. *)
Class System (World : Type) : Type := {
  http_get : string -> Query -> World -> Outcome Payload * World;
  read_json : string -> World -> FileOutcome * World;
  pipeline : string -> string -> World -> Outcome (Classifier World) * World;
  input : Prompt -> World -> InputOutcome * World;
  random_shuffle : list Movie -> World -> list Movie * World
}.

(** A program at this level. *)
Definition Sys (World A : Type) : Type := World -> A * list SysEvent * World.

Global Instance sys_ret {World : Type} : MRet (Sys World) :=
  fun A (a : A) w => (a, [], w).

Global Instance sys_bind {World : Type} : MBind (Sys World) :=
  fun A B (k : A -> Sys World B) (m : Sys World A) w =>
    let '(a, t1, w1) := m w in
    let '(b, t2, w2) := k a w1 in
    (b, t1 ++ t2, w2).

Definition say {World : Type} (l : SysLine) : Sys World unit :=
  fun w => (tt, [Said l], w).

(** A run of the pipeline inside a program of this level; the events
    of the run are kept together. *)
Definition lift {World A : Type} (p : Prog World A) : Sys World A :=
  fun w => let '(a, t, w') := p w in (a, [Pipeline t], w').

Definition result {World A : Type} (r : A * list SysEvent * World) : A :=
  r.1.1.
Definition trace {World A : Type} (r : A * list SysEvent * World)
  : list SysEvent := r.1.2.
Definition world_of {World A : Type} (r : A * list SysEvent * World) : World :=
  r.2.

(** How a loop of the catalogue search ends. *)
Inductive Flow : Type :=
| Normal
| Exception.

(** [o == 'True'] for the value of [data.get('Response')]. *)
Definition is_True (o : option string) : bool :=
  match o with
  | Some s => String.eqb s "True"
  | None => false
  end.

(** [x in l] for strings. *)
Definition str_in (x : string) (l : list string) : bool :=
  existsb (String.eqb x) l.

(* ------------------------------------------------------------------ *)
(** ** recommender.py: credentials and the catalogue search *)

Module Catalogue.

(** The attributes of a [MovieRecommender] that differ between
    instances. *)
Record MovieRecommender : Type := {
  api_key : string;
  api_base_url : string
}.

(** [self.genre_keywords] *)
Definition genre_keywords : gmap string (list string) :=
  list_to_map [
    ("Comedy", ["funny"; "laugh"; "humor"; "comedy"]);
    ("Romance", ["love"; "romantic"; "romance"]);
    ("Drama", ["drama"; "emotional"; "story"]);
    ("Action", ["action"; "adventure"; "hero"]);
    ("Thriller", ["thriller"; "suspense"; "mystery"]);
    ("Horror", ["horror"; "scary"; "fear"]);
    ("Sci-Fi", ["science"; "fiction"; "future"; "space"]);
    ("Fantasy", ["fantasy"; "magic"; "adventure"]);
    ("Animation", ["animated"; "cartoon"; "family"]);
    ("Family", ["family"; "kids"; "children"]);
    ("Musical", ["musical"; "music"; "song"]);
    ("Biography", ["biography"; "true"; "story"]);
    ("Mystery", ["mystery"; "detective"; "crime"])
  ].

Section Code.

Context {World : Type} {sys : System World}.

Definition call_get (url : string) (q : Query) : Sys World (Outcome Payload) :=
  fun w => let '(o, w') := http_get url q w in (o, [Requested url q], w').

Definition call_read_json (path : string) : Sys World FileOutcome :=
  fun w => let '(o, w') := read_json path w in (o, [OpenedFile path], w').

(** [MovieRecommender._load_credentials]: the recommender's two
    attributes when it returns, [Raised] when it re-raises. *)
Definition _load_credentials (credentials_file : string)
  : Sys World (Outcome MovieRecommender) :=
  f ← call_read_json credentials_file;
  match f with
  | FileNotFound =>
      say (MsgCredentialsNotFound credentials_file);; mret Raised
  | FileUnreadable => say MsgCredentialsError;; mret Raised
  | FileParsed credentials =>
      let api_key := json_omdb_api_key credentials in
      let api_base_url :=
        default "http://www.omdbapi.com/" (json_api_base_url credentials) in
      match api_key with
      | None => say MsgCredentialsError;; mret Raised
      | Some api_key =>
          if negb (truthy api_key) then say MsgCredentialsError;; mret Raised
          else
            say MsgCredentialsLoaded;;
            mret (Returned {| api_key := api_key;
                              api_base_url := api_base_url |})
      end
  end.

(** [MovieRecommender.__init__] *)
Definition __init__ (credentials_file : string)
  : Sys World (Outcome MovieRecommender) :=
  self ← _load_credentials credentials_file;
  match self with
  | Raised => mret Raised
  | Returned self => say MsgRecommenderReady;; mret (Returned self)
  end.

(** [MovieRecommender.get_movie_details] *)
Definition get_movie_details (self : MovieRecommender) (imdb_id : string)
  : Sys World (option Movie) :=
  data ← call_get (api_base_url self) (ById (api_key self) imdb_id);
  match data with
  | Raised => say (MsgDetailsError imdb_id);; mret None
  | Returned data =>
      if is_True (json_Response data) then
        mret (Some {| title := default "N/A" (json_Title data);
                      year := default "N/A" (json_Year data);
                      genre := default "N/A" (json_Genre data);
                      director := default "N/A" (json_Director data);
                      plot := default "N/A" (json_Plot data);
                      poster := default "N/A" (json_Poster data);
                      imdb_rating := default "N/A" (json_imdbRating data);
                      imdb_id := imdb_id;
                      link := "https://www.imdb.com/title/" ++ imdb_id ++ "/"
                   |})
      else mret None
  end.

(** The loop over [data['Search']] in [search_movies_by_genre]. *)
Fixpoint details_loop (self : MovieRecommender) (hits : list Hit) (limit : Z)
  (movies : list Movie) : Sys World (list Movie * Flow) :=
  match hits with
  | [] => mret (movies, Normal)
  | movie :: rest =>
      if limit <=? Z.of_nat (length movies) then mret (movies, Normal)
      else
        match json_imdbID movie with
        | None => mret (movies, Exception)
        | Some id =>
            detailed_movie ← get_movie_details self id;
            details_loop self rest limit
              match detailed_movie with
              | Some detailed_movie => movies ++ [detailed_movie]
              | None => movies
              end
        end
  end.

(** The body of the loop over [keywords[:3]], up to its closing test:
    one search request and the loop over its hits. *)
Definition keyword_step (self : MovieRecommender) (keyword : string)
  (limit : Z) (movies : list Movie) : Sys World (list Movie * Flow) :=
  data ← call_get (api_base_url self) (ByKeyword (api_key self) keyword);
  match data with
  | Raised => mret (movies, Exception)
  | Returned data =>
      if is_True (json_Response data) then
        match json_Search data with
        | Some hits => details_loop self hits limit movies
        | None => mret (movies, Normal)
        end
      else mret (movies, Normal)
  end.

(** The loop over [keywords[:3]] in [search_movies_by_genre]. *)
Fixpoint keywords_loop (self : MovieRecommender) (keywords : list string)
  (limit : Z) (movies : list Movie) : Sys World (list Movie * Flow) :=
  match keywords with
  | [] => mret (movies, Normal)
  | keyword :: rest =>
      r ← keyword_step self keyword limit movies;
      match r with
      | (movies, Exception) => mret (movies, Exception)
      | (movies, Normal) =>
          if limit <=? Z.of_nat (length movies) then mret (movies, Normal)
          else keywords_loop self rest limit movies
      end
  end.

(** [self.genre_keywords.get(genre, [genre.lower()])] *)
Definition keywords_for (genre : string) : list string :=
  dict_get genre_keywords genre [lower genre].

(** [MovieRecommender.search_movies_by_genre] *)
Definition search_movies_by_genre (self : MovieRecommender) (genre : string)
  (limit : Z) : Sys World (list Movie) :=
  let keywords := keywords_for genre in
  r ← keywords_loop self (firstn 3 keywords) limit [];
  match r with
  | (movies, Exception) => say (MsgSearchError genre);; mret movies
  | (movies, Normal) => mret movies
  end.

(** A recommender on its own: it searches the catalogue and has no
    classifier to call. *)
Definition external (self : MovieRecommender) : External World :=
  Build_External World
    (fun _ w => (Raised, w))
    (fun genre limit w =>
       let r := search_movies_by_genre self genre limit w in
       (result r, world_of r))
    random_shuffle.

(** The module function [get_emotion_genres]. *)
Definition get_emotion_genres (emotion : string)
  : Sys World (Outcome (list string)) :=
  recommender ← __init__ "credentials.json";
  match recommender with
  | Raised => mret Raised
  | Returned recommender => mret (Returned (get_genres_for_emotion emotion))
  end.

(** The module function [recommend_movies]. *)
Definition recommend_movies (emotion : string) (num_recommendations : Z)
  : Sys World (Outcome (list Movie)) :=
  recommender ← __init__ "credentials.json";
  match recommender with
  | Raised => mret Raised
  | Returned recommender =>
      movies ← lift (recommend_movies (ext := external recommender)
                                      emotion num_recommendations);
      mret (Returned movies)
  end.

End Code.

End Catalogue.

(** The keyword and the detail requests among the events, in order. *)
Definition keyword_requests (t : list SysEvent) : list string :=
  omap (fun e => match e with
                 | Requested _ (ByKeyword _ s) => Some s
                 | _ => None
                 end) t.

Definition detail_requests (t : list SysEvent) : list string :=
  omap (fun e => match e with
                 | Requested _ (ById _ i) => Some i
                 | _ => None
                 end) t.

(* ------------------------------------------------------------------ *)
(** ** emotion_model.py: loading the model, and the module functions *)

Module Detector.

Section Code.

Context {World : Type} {sys : System World}.

Definition call_pipeline (task model : string)
  : Sys World (Outcome (Classifier World)) :=
  fun w =>
    let '(o, w') := pipeline task model w in
    (o, [LoadedPipeline task model], w').

(** [EmotionDetector.__init__]: the classifier the detector holds, or
    [Raised] when the fallback cannot be loaded either. *)
Definition __init__ : Sys World (Outcome (Classifier World)) :=
  primary ← call_pipeline "text-classification"
                          "nateraw/bert-base-uncased-emotion";
  match primary with
  | Returned classifier => say MsgModelLoaded;; mret (Returned classifier)
  | Raised =>
      say MsgModelError;;
      call_pipeline "sentiment-analysis"
                    "distilbert-base-uncased-finetuned-sst-2-english"
  end.

(** A detector on its own: it classifies with the classifier it holds
    and has no catalogue to search. *)
Definition external (classifier : Classifier World) : External World :=
  Build_External World classifier (fun _ _ w => ([], w)) random_shuffle.

(** The module function [detect_emotion_detailed]. *)
Definition detect_emotion_detailed (text : string)
  : Sys World (Outcome EmotionResult) :=
  detector ← __init__;
  match detector with
  | Raised => mret Raised
  | Returned classifier =>
      r ← lift (detect_emotion (ext := external classifier) text);
      mret (Returned r)
  end.

(** The module function [detect_emotion]. *)
Definition detect_emotion (text : string) : Sys World (Outcome string) :=
  detector ← __init__;
  match detector with
  | Raised => mret Raised
  | Returned classifier =>
      result ← lift (detect_emotion (ext := external classifier) text);
      mret (Returned (normalized_emotion result))
  end.

End Code.

End Detector.

(* ------------------------------------------------------------------ *)
(** ** main.py: the agent, the interactive mode and the entry point *)

Module Agent.

(** The two attributes of a [MoodMovieRecommendationAgent]. *)
Record Agent (World : Type) : Type := {
  emotion_detector : Classifier World;
  movie_recommender : Catalogue.MovieRecommender
}.

Arguments emotion_detector {World} _.
Arguments movie_recommender {World} _.

(** How one pass through the body of the interactive loop ends. *)
Inductive Pass : Type :=
| Continue
| Break.

(** How the statements inside the [try] of the loop end. *)
Inductive Ending : Type :=
| Finished (p : Pass)
| Interrupted
| Failed.

(** [' '.join(l)] *)
Fixpoint join (l : list string) : string :=
  match l with
  | [] => ""
  | [x] => x
  | x :: rest => x ++ " " ++ join rest
  end.

Section Code.

Context {World : Type} {sys : System World}.

Definition call_input (prompt : Prompt) : Sys World InputOutcome :=
  fun w => let '(o, w') := input prompt w in (o, [Asked prompt], w').

(** [MoodMovieRecommendationAgent.__init__]; [Raised] is [sys.exit(1)]. *)
Definition __init__ : Sys World (Outcome (Agent World)) :=
  say MsgInitializing;;
  say MsgLoadingModel;;
  emotion_detector ← Detector.__init__;
  match emotion_detector with
  | Raised => say MsgInitError;; mret Raised
  | Returned emotion_detector =>
      say MsgLoadingRecommender;;
      movie_recommender ← Catalogue.__init__ "credentials.json";
      match movie_recommender with
      | Raised => say MsgInitError;; mret Raised
      | Returned movie_recommender =>
          say MsgSystemReady;;
          mret (Returned {| emotion_detector := emotion_detector;
                            movie_recommender := movie_recommender |})
      end
  end.

(** The pipeline of an agent: its detector's classifier, its
    recommender's catalogue search, and [random.shuffle].  What a
    search asks of the service is not part of the pipeline's events. *)
Definition external (self : Agent World) : External World :=
  Build_External World
    (emotion_detector self)
    (fun genre limit w =>
       let r := Catalogue.search_movies_by_genre
                  (movie_recommender self) genre limit w in
       (result r, world_of r))
    random_shuffle.

(** A call of [self.analyze_mood_and_recommend]. *)
Definition analyze (self : Agent World) (user_input : string)
  (num_recommendations : Z) : Sys World (option Analysis) :=
  lift (analyze_mood_and_recommend (ext := external self)
                                   user_input num_recommendations).

(** The statements inside the [try] of the interactive loop. *)
Definition interactive_try (self : Agent World) : Sys World Ending :=
  line ← call_input PromptFeeling;
  match line with
  | InputInterrupted => mret Interrupted
  | InputFailed => mret Failed
  | InputLine line =>
      let user_input := strip line in
      if str_in (lower user_input) ["quit"; "exit"; "bye"; "q"] then
        say MsgGoodbye;; mret (Finished Break)
      else if negb (truthy user_input) then
        say MsgEmptyInput;; mret (Finished Continue)
      else
        say MsgRule;;
        result ← analyze self user_input 3;
        match result with
        | None => say MsgReady;; mret (Finished Continue)
        | Some result =>
            say (MsgMorePrompt (detected_emotion result));;
            more ← call_input PromptNone;
            match more with
            | InputInterrupted => mret Interrupted
            | InputFailed => mret Failed
            | InputLine more =>
                let more_input := lower (strip more) in
                (if str_in more_input ["y"; "yes"] then
                   say MsgGettingMore;;
                   analyze self user_input 5;;
                   mret tt
                 else mret tt);;
                say MsgReady;;
                mret (Finished Continue)
            end
        end
  end.

(** One pass through the loop body, with its two handlers. *)
Definition interactive_pass (self : Agent World) : Sys World Pass :=
  ending ← interactive_try self;
  match ending with
  | Finished p => mret p
  | Interrupted => say MsgInterrupted;; mret Break
  | Failed => say MsgLoopError;; mret Continue
  end.

(** [while True] with at most [fuel] passes: [None] when the loop is
    still running after them. *)
Fixpoint interactive_loop (fuel : nat) (self : Agent World)
  : Sys World (option unit) :=
  match fuel with
  | O => mret None
  | S fuel =>
      p ← interactive_pass self;
      match p with
      | Break => mret (Some tt)
      | Continue => interactive_loop fuel self
      end
  end.

(** [MoodMovieRecommendationAgent.interactive_mode] *)
Definition interactive_mode (fuel : nat) (self : Agent World)
  : Sys World (option unit) :=
  say MsgWelcome;;
  interactive_loop fuel self.

(** [main]: the exit status of the process, [None] when the
    interactive loop is still running after [fuel] passes. *)
Definition main (fuel : nat) (argv : list string) : Sys World (option Z) :=
  say MsgBanner;;
  agent ← __init__;
  match agent with
  | Raised => mret (Some 1)
  | Returned agent =>
      if (1 <? length argv)%nat then
        let user_input := join (tl argv) in
        say (MsgCommandLine user_input);;
        result ← analyze agent user_input 3;
        match result with
        | Some _ => say MsgComplete;; mret (Some 0)
        | None => mret (Some 0)
        end
      else
        done ← interactive_mode fuel agent;
        match done with
        | Some _ => mret (Some 0)
        | None => mret None
        end
  end.

End Code.

End Agent.

(** The runs of the pipeline among the events, in order. *)
Definition pipeline_runs (t : list SysEvent) : list (list Event) :=
  omap (fun e => match e with Pipeline p => Some p | _ => None end) t.

(** The prompts answered among the events, in order. *)
Definition prompts (t : list SysEvent) : list Prompt :=
  omap (fun e => match e with Asked p => Some p | _ => None end) t.

(** The files opened among the events, in order. *)
Definition files_opened (t : list SysEvent) : list string :=
  omap (fun e => match e with OpenedFile p => Some p | _ => None end) t.

(** The models loaded among the events, in order. *)
Definition models_loaded (t : list SysEvent) : list string :=
  omap (fun e => match e with LoadedPipeline _ m => Some m | _ => None end) t.

(** The classifier calls among the events of a pipeline run. *)
Definition classifier_calls (t : list Event) : list string :=
  omap (fun e => match e with Classified s => Some s | _ => None end) t.

(** A record as [get_movie_details] builds it for its identifier. *)
Definition wellformed (m : Movie) : Prop :=
  link m = ("https://www.imdb.com/title/" ++ imdb_id m ++ "/")%string.

(** The rank of a tier label, [very_low] lowest. *)
Definition tier_rank (level : string) : Z :=
  if String.eqb level "high" then 3
  else if String.eqb level "medium" then 2
  else if String.eqb level "low" then 1
  else 0.

(* ------------------------------------------------------------------ *)
(** ** A small concrete system, used to run the model *)

Module StubSys.

Record World : Type := {
  service : Query -> Outcome Payload;
  file : FileOutcome;
  primary_loads : bool;
  fallback_loads : bool;
  reply : Outcome ClassifierValue;
  lines : list InputOutcome
}.

(** The loaded classifier gives the canned reply. *)
Definition classifier : Classifier World := fun _ w => (reply w, w).

(** Reading takes the next scripted line; at the end of the script
    [input] fails. *)
Definition read (w : World) : InputOutcome * World :=
  match lines w with
  | [] => (InputFailed, w)
  | l :: rest =>
      (l, {| service := service w; file := file w;
             primary_loads := primary_loads w;
             fallback_loads := fallback_loads w;
             reply := reply w; lines := rest |})
  end.

Definition system : System World :=
  {| http_get := fun _ q w => (service w q, w);
     read_json := fun _ w => (file w, w);
     pipeline :=
       fun task _ w =>
         (if (if String.eqb task "text-classification"
              then primary_loads w else fallback_loads w)
          then Returned classifier else Raised, w);
     input := fun _ w => read w;
     random_shuffle := fun l w => (rev l, w) |}.

Definition answer (response : string) (hits : option (list Hit))
  (name : option string) : Payload :=
  {| json_Response := Some response; json_Search := hits;
     json_Title := name; json_Year := None; json_Genre := None;
     json_Director := None; json_Plot := None; json_Poster := None;
     json_imdbRating := None |}.

Definition hit (id : string) : Hit := {| json_imdbID := Some id |}.

(** Two keywords have hits; the details of [tt002] cannot be found. *)
Definition omdb (q : Query) : Outcome Payload :=
  match q with
  | ByKeyword _ s =>
      if String.eqb s "funny" then
        Returned (answer "True" (Some [hit "tt001"; hit "tt002"; hit "tt003"])
                         None)
      else if String.eqb s "laugh" then
        Returned (answer "True" (Some [hit "tt003"; hit "tt004"]) None)
      else Returned (answer "False" None None)
  | ById _ i =>
      if String.eqb i "tt002" then Returned (answer "False" None None)
      else Returned (answer "True" None (Some ("Film " ++ i)%string))
  end.

(** The record built from the answer for [id] above. *)
Definition film (id : string) : Movie :=
  {| title := "Film " ++ id; year := "N/A"; genre := "N/A";
     director := "N/A"; plot := "N/A"; poster := "N/A";
     imdb_rating := "N/A"; imdb_id := id;
     link := "https://www.imdb.com/title/" ++ id ++ "/" |}.

Definition down (q : Query) : Outcome Payload := Raised.

Definition good_file : FileOutcome :=
  FileParsed {| json_omdb_api_key := Some "k3y"; json_api_base_url := None |}.

Definition recommender : Catalogue.MovieRecommender :=
  {| Catalogue.api_key := "k3y";
     Catalogue.api_base_url := "http://www.omdbapi.com/" |}.

Definition says (l : string) (s : float) : Outcome ClassifierValue :=
  Returned (PredictionList [ {| label := l; score := s |} ]).

Definition session (script : list InputOutcome) : World :=
  {| service := omdb; file := good_file; primary_loads := true;
     fallback_loads := true; reply := says "JOY" (decimal 92 100);
     lines := script |}.

Definition offline : World :=
  {| service := down; file := good_file; primary_loads := true;
     fallback_loads := true; reply := says "JOY" (decimal 92 100);
     lines := [] |}.

Definition no_models : World :=
  {| service := omdb; file := good_file; primary_loads := false;
     fallback_loads := false; reply := Raised; lines := [] |}.

Definition no_credentials : World :=
  {| service := omdb; file := FileNotFound; primary_loads := false;
     fallback_loads := true; reply := says "POSITIVE" (decimal 99 100);
     lines := [] |}.

(** The same system with the terminal closed: every [input] fails. *)
Definition unattended : System World :=
  {| http_get := fun _ q w => (service w q, w);
     read_json := fun _ w => (file w, w);
     pipeline := fun _ _ w => (Returned classifier, w);
     input := fun _ w => (InputFailed, w);
     random_shuffle := fun l w => (rev l, w) |}.

(** The same system with the catalogue service out of reach: every
    request fails. *)
Definition disconnected : System World :=
  {| http_get := fun _ _ w => (Raised, w);
     read_json := fun _ w => (file w, w);
     pipeline := fun _ _ w => (Returned classifier, w);
     input := fun _ w => read w;
     random_shuffle := fun l w => (rev l, w) |}.

Definition agent : Agent.Agent World :=
  {| Agent.emotion_detector := classifier;
     Agent.movie_recommender := recommender |}.

End StubSys.
(* ------------------------------------------------------------------ *)
(** ** Facts about float comparison *)

Section FloatOrder.

Lemma lex_compare_Lt a b : lex_compare a b = Lt <-> lex_lt a b.
Proof.
  destruct a as [[a1 a2] a3], b as [[b1 b2] b3]; simpl.
  destruct (Z.compare_spec a1 b1); [destruct (Z.compare_spec a2 b2)|..];
    rewrite ?Z.compare_lt_iff; split; intros;
    try discriminate; try reflexivity; try lia; exfalso; lia.
Qed.

Lemma lex_compare_Gt a b : lex_compare a b = Gt <-> lex_lt b a.
Proof.
  destruct a as [[a1 a2] a3], b as [[b1 b2] b3]; simpl.
  destruct (Z.compare_spec a1 b1); [destruct (Z.compare_spec a2 b2)|..];
    rewrite ?Z.compare_gt_iff; split; intros;
    try discriminate; try reflexivity; try lia; exfalso; lia.
Qed.

Lemma SFcompare_key (x y : float) :
  is_nan x = false -> is_nan y = false ->
  SFcompare x y = Some (lex_compare (key x) (key y)).
Proof.
  destruct x as [sx|sx| |sx mx ex], y as [sy|sy| |sy my ey];
    simpl; try discriminate; intros _ _;
    try (destruct sx); try (destruct sy); try reflexivity.
  change (lex_compare (-1, - ex, Z.neg mx) (-1, - ey, Z.neg my))
    with (match - ex ?= - ey with
          | Eq => Z.neg mx ?= Z.neg my
          | c => c
          end).
  rewrite Z.compare_opp, (Z.compare_antisym ex ey).
  destruct (ex ?= ey); reflexivity.
Qed.

Lemma lt_is_nan x y : lt x y = true -> is_nan x = false /\ is_nan y = false.
Proof. destruct x, y; simpl; try discriminate; auto. Qed.

Lemma ge_is_nan x y : ge x y = true -> is_nan x = false /\ is_nan y = false.
Proof. destruct x, y; simpl; try discriminate; auto. Qed.

Lemma lt_key x y :
  lt x y = true <->
  is_nan x = false /\ is_nan y = false /\ lex_lt (key x) (key y).
Proof.
  split.
  - intros H. destruct (lt_is_nan _ _ H) as [Hx Hy].
    repeat split; trivial. apply lex_compare_Lt.
    unfold lt, SFltb in H. rewrite (SFcompare_key _ _ Hx Hy) in H.
    destruct (lex_compare (key x) (key y)); congruence.
  - intros (Hx & Hy & H). apply lex_compare_Lt in H.
    unfold lt, SFltb. rewrite (SFcompare_key _ _ Hx Hy), H. reflexivity.
Qed.

Lemma ge_key x y :
  ge x y = true <->
  is_nan x = false /\ is_nan y = false /\ ~ lex_lt (key x) (key y).
Proof.
  split.
  - intros H. destruct (ge_is_nan _ _ H) as [Hx Hy].
    repeat split; trivial. rewrite <- lex_compare_Gt.
    unfold ge, SFleb in H. rewrite (SFcompare_key _ _ Hy Hx) in H.
    destruct (lex_compare (key y) (key x)); congruence.
  - intros (Hx & Hy & H). rewrite <- lex_compare_Gt in H.
    unfold ge, SFleb. rewrite (SFcompare_key _ _ Hy Hx).
    destruct (lex_compare (key y) (key x)); congruence.
Qed.

(** [x < y] excludes [x >= y]. *)
Lemma lt_not_ge x y : lt x y = true -> ge x y = false.
Proof.
  intros H. destruct (ge x y) eqn:G; trivial.
  apply lt_key in H. apply ge_key in G. tauto.
Qed.

(** [x < y] and [z >= y] exclude [x >= z]. *)
Lemma lt_ge_not_ge x y z :
  lt x y = true -> ge z y = true -> ge x z = false.
Proof.
  intros H1 H2. destruct (ge x z) eqn:G; trivial.
  apply lt_key in H1. apply ge_key in H2. apply ge_key in G.
  destruct H1 as (_ & _ & H1), H2 as (_ & _ & H2), G as (_ & _ & G).
  exfalso. revert H1 H2 G.
  destruct (key x) as [[x1 x2] x3], (key y) as [[y1 y2] y3],
    (key z) as [[z1 z2] z3]; simpl. lia.
Qed.

(** On numbers, [x >= y] failing means [x < y]. *)
Lemma not_ge_lt x y :
  is_nan x = false -> is_nan y = false -> ge x y = false -> lt x y = true.
Proof.
  intros Hx Hy G. apply lt_key. repeat split; trivial.
  destruct (ge x y) eqn:G'; [discriminate|].
  assert (N : ~ (is_nan x = false /\ is_nan y = false /\
                 ~ lex_lt (key x) (key y))).
  { intros C. apply ge_key in C. congruence. }
  assert (NN : ~ ~ lex_lt (key x) (key y)) by tauto.
  revert NN. clear.
  destruct (key x) as [[x1 x2] x3], (key y) as [[y1 y2] y3]; simpl. lia.
Qed.

End FloatOrder.

(* ------------------------------------------------------------------ *)
(** ** Confidence tiers *)

Section Tiers.

(** The literals of the source, as the binary64 numbers they denote:
    [0x1.999999999999ap-1], [0x1.3333333333333p-1],
    [0x1.999999999999ap-2] and positive zero. *)
Example literal_values :
  0.8 = S754_finite false 7205759403792794 (-53) /\
  0.6 = S754_finite false 5404319552844595 (-53) /\
  0.4 = S754_finite false 7205759403792794 (-54) /\
  0.0 = S754_zero false.
Proof. repeat split; vm_compute; reflexivity. Qed.

Lemma thresholds_ordered : ge 0.6 0.4 = true /\ ge 0.8 0.6 = true.
Proof. split; vm_compute; reflexivity. Qed.

Lemma tier_high s :
  ge s 0.8 = true -> get_emotion_confidence_level s = "high".
Proof. unfold get_emotion_confidence_level. intros ->. reflexivity. Qed.

Lemma tier_medium s :
  ge s 0.6 = true -> lt s 0.8 = true ->
  get_emotion_confidence_level s = "medium".
Proof.
  unfold get_emotion_confidence_level. intros H6 H8.
  rewrite (lt_not_ge _ _ H8), H6. reflexivity.
Qed.

Lemma tier_low s :
  ge s 0.4 = true -> lt s 0.6 = true ->
  get_emotion_confidence_level s = "low".
Proof.
  unfold get_emotion_confidence_level. intros H4 H6.
  rewrite (lt_ge_not_ge s 0.6 0.8 H6 (proj2 thresholds_ordered)).
  rewrite (lt_not_ge _ _ H6), H4. reflexivity.
Qed.

Lemma tier_very_low s :
  lt s 0.4 = true -> get_emotion_confidence_level s = "very_low".
Proof.
  unfold get_emotion_confidence_level. intros H4.
  assert (H6 : ge s 0.6 = false)
    by exact (lt_ge_not_ge s 0.4 0.6 H4 (proj1 thresholds_ordered)).
  assert (H8 : ge s 0.8 = false).
  { apply (lt_ge_not_ge s 0.4 0.8 H4). vm_compute. reflexivity. }
  rewrite H8, H6, (lt_not_ge _ _ H4). reflexivity.
Qed.

(** A number of tier [very_low] is below 0.4. *)
Lemma very_low_below s :
  is_nan s = false ->
  get_emotion_confidence_level s = "very_low" -> lt s 0.4 = true.
Proof.
  unfold get_emotion_confidence_level. intros N H.
  destruct (ge s 0.8); [discriminate|].
  destruct (ge s 0.6); [discriminate|].
  destruct (ge s 0.4) eqn:G; [discriminate|].
  apply not_ge_lt; trivial.
Qed.

(** A score of tier [low] is not below 0.4. *)
Lemma low_not_below s :
  get_emotion_confidence_level s = "low" -> lt s 0.4 = false.
Proof.
  unfold get_emotion_confidence_level. intros H.
  destruct (ge s 0.8); [discriminate|].
  destruct (ge s 0.6); [discriminate|].
  destruct (ge s 0.4) eqn:G; [|discriminate].
  destruct (lt s 0.4) eqn:L; trivial.
  apply lt_not_ge in L. congruence.
Qed.

End Tiers.

(** C4, as stated, fails: the claim sends 0.79 to [low], the code sends
    it to [medium], the tier of the interval [0.6, 0.8) it lies in. *)
Lemma C4_tier_of_0_79_is_not_low :
  get_emotion_confidence_level (decimal 79 100) = "medium" /\
  get_emotion_confidence_level (decimal 79 100) <> "low".
Proof. split; [vm_compute; reflexivity | vm_compute; discriminate]. Qed.

(** C4, amended: the tier is a step function of the score with
    breakpoints 0.8, 0.6 and 0.4 -- [high] from 0.8 on, [medium] on
    [0.6, 0.8), [low] on [0.4, 0.6), [very_low] below 0.4 -- and in
    particular 0.79 is [medium], 0.8 [high], 0.59 [low], 0.6 [medium],
    0.39 [very_low] and 0.4 [low]. *)
Theorem C4_confidence_tier_breakpoints :
  (forall s : float,
      (ge s 0.8 = true -> get_emotion_confidence_level s = "high") /\
      (ge s 0.6 = true -> lt s 0.8 = true ->
       get_emotion_confidence_level s = "medium") /\
      (ge s 0.4 = true -> lt s 0.6 = true ->
       get_emotion_confidence_level s = "low") /\
      (lt s 0.4 = true -> get_emotion_confidence_level s = "very_low")) /\
  get_emotion_confidence_level (decimal 79 100) = "medium" /\
  get_emotion_confidence_level (decimal 8 10) = "high" /\
  get_emotion_confidence_level (decimal 59 100) = "low" /\
  get_emotion_confidence_level (decimal 6 10) = "medium" /\
  get_emotion_confidence_level (decimal 39 100) = "very_low" /\
  get_emotion_confidence_level (decimal 4 10) = "low".
Proof.
  split.
  - intros s. repeat split.
    + apply tier_high.
    + apply tier_medium.
    + apply tier_low.
    + apply tier_very_low.
  - repeat split; vm_compute; reflexivity.
Qed.

(* ------------------------------------------------------------------ *)
(** ** The two lookup tables *)

Section Tables.

Lemma dict_get_list_to_map_absent {V : Type} (l : list (string * V)) k d :
  ~ In k (map fst l) -> dict_get (list_to_map l) k d = d.
Proof.
  intros H. unfold dict_get.
  rewrite (not_elem_of_list_to_map_1 (M := gmap string) l k); [reflexivity|].
  intros C. apply H. apply list_elem_of_In. exact C.
Qed.

Lemma normalize_policy l e :
  In (l, e) policy_table -> _normalize_emotion l = e.
Proof.
  unfold policy_table. intros H.
  repeat (destruct H as [H|H];
          [injection H as <- <-; vm_compute; reflexivity|]).
  destruct H.
Qed.

Lemma normalize_unlisted l :
  ~ In l (map fst policy_table) -> _normalize_emotion l = "neutral".
Proof.
  intros H. unfold _normalize_emotion, emotion_mapping.
  apply dict_get_list_to_map_absent.
  intros C. apply H. revert C. simpl. tauto.
Qed.

Lemma genres_unlisted e :
  ~ In e canonical_emotions ->
  get_genres_for_emotion e = ["Action"; "Adventure"; "Comedy"; "Drama"].
Proof.
  intros H. unfold get_genres_for_emotion, emotion_genre_mapping.
  rewrite dict_get_list_to_map_absent; [vm_compute; reflexivity|].
  exact H.
Qed.

(** Every genre list has four or five entries, so [len(genres)] is
    never zero. *)
Lemma genres_length e :
  length (get_genres_for_emotion e) = 4%nat \/
  length (get_genres_for_emotion e) = 5%nat.
Proof.
  destruct (in_dec string_dec e canonical_emotions) as [H|H].
  - unfold canonical_emotions in H.
    repeat (destruct H as [H|H];
            [subst e; vm_compute; auto|]).
    destruct H.
  - rewrite (genres_unlisted e H). auto.
Qed.

End Tables.

(** C5: the genre lookup gives the documented, non-empty list for each
    of the seven canonical emotions and the [neutral] list for every
    other input. *)
Theorem C5_genres_for_emotion :
  get_genres_for_emotion "joy"
    = ["Comedy"; "Romance"; "Family"; "Animation"; "Musical"] /\
  get_genres_for_emotion "love" = ["Romance"; "Comedy"; "Family"; "Drama"] /\
  get_genres_for_emotion "sadness"
    = ["Drama"; "Animation"; "Biography"; "Romance"] /\
  get_genres_for_emotion "anger"
    = ["Comedy"; "Adventure"; "Action"; "Thriller"] /\
  get_genres_for_emotion "fear"
    = ["Family"; "Fantasy"; "Adventure"; "Animation"] /\
  get_genres_for_emotion "surprise"
    = ["Mystery"; "Adventure"; "Thriller"; "Sci-Fi"] /\
  get_genres_for_emotion "neutral"
    = ["Action"; "Adventure"; "Comedy"; "Drama"] /\
  (forall e : string, get_genres_for_emotion e <> []) /\
  (forall e : string,
      ~ In e canonical_emotions ->
      get_genres_for_emotion e = get_genres_for_emotion "neutral").
Proof.
  repeat split; try (vm_compute; reflexivity).
  - intros e E. pose proof (genres_length e) as L. rewrite E in L.
    simpl in L. destruct L; discriminate.
  - intros e H. rewrite (genres_unlisted e H). vm_compute. reflexivity.
Qed.

(* ------------------------------------------------------------------ *)
(** ** Blank strings *)

Section Blank.

Lemma lstrip_blank s : blank s = true -> lstrip s = "".
Proof.
  induction s as [|c s IH]; simpl; [reflexivity|].
  intros H. apply andb_prop in H as [Hc Hs]. rewrite Hc. auto.
Qed.

Lemma strip_blank s : blank s = true -> strip s = "".
Proof. intros H. unfold strip. rewrite (lstrip_blank s H). reflexivity. Qed.

Lemma lstrip_not_blank s :
  blank s = false ->
  exists c s', lstrip s = String c s' /\ isspace c = false.
Proof.
  induction s as [|c s IH]; simpl; [discriminate|].
  destruct (isspace c) eqn:Hc; simpl.
  - exact IH.
  - intros _. exists c, s. auto.
Qed.

Lemma rstrip_keeps_head c s :
  isspace c = false -> truthy (rstrip (String c s)) = true.
Proof. intros Hc. simpl. rewrite Hc. destruct (rstrip s); reflexivity. Qed.

Lemma strip_not_blank s : blank s = false -> truthy (strip s) = true.
Proof.
  intros H. destruct (lstrip_not_blank s H) as (c & s' & E & Hc).
  unfold strip. rewrite E. apply rstrip_keeps_head, Hc.
Qed.

(** The guard [not text or not text.strip()] holds exactly on blank
    text. *)
Lemma guard_is_blank text :
  negb (truthy text) || negb (truthy (strip text)) = blank text.
Proof.
  destruct (blank text) eqn:B.
  - rewrite (strip_blank text B). simpl. apply orb_true_r.
  - rewrite (strip_not_blank text B).
    destruct text; [discriminate B | reflexivity].
Qed.

End Blank.

(* ------------------------------------------------------------------ *)
(** ** Emotion detection *)

Section Detection.

Context {World : Type} {ext : External World}.

Lemma detect_blank (text : string) (w : World) :
  blank text = true ->
  detect_emotion text w = (neutral_result, [], w).
Proof.
  intros B. unfold detect_emotion. rewrite guard_is_blank, B. reflexivity.
Qed.

Lemma detect_raised (text : string) (w : World) :
  blank text = false ->
  (classifier (strip text) w).1 = Raised ->
  detect_emotion text w
  = (neutral_result,
     [Classified (strip text); Printed MsgDetectionError],
     (classifier (strip text) w).2).
Proof.
  intros B R. unfold detect_emotion. rewrite guard_is_blank, B. simpl.
  unfold mbind, prog_bind, call_classifier.
  destruct (classifier (strip text) w) as [o w']. simpl in R. subst o.
  reflexivity.
Qed.

Lemma detect_no_top (text : string) (w w' : World) v :
  blank text = false ->
  classifier (strip text) w = (Returned v, w') ->
  top_of v = Raised ->
  detect_emotion text w
  = (neutral_result, [Classified (strip text); Printed MsgDetectionError], w').
Proof.
  intros B C T. unfold detect_emotion. rewrite guard_is_blank, B. simpl.
  unfold mbind, prog_bind, call_classifier. rewrite C, T. reflexivity.
Qed.

Lemma detect_returned (text : string) (w w' : World) v p :
  blank text = false ->
  classifier (strip text) w = (Returned v, w') ->
  top_of v = Returned p ->
  detect_emotion text w
  = ({| emotion := lower (label p);
        confidence := score p;
        raw_prediction := Some p;
        normalized_emotion := _normalize_emotion (lower (label p)) |},
     [Classified (strip text)], w').
Proof.
  intros B C T. unfold detect_emotion. rewrite guard_is_blank, B. simpl.
  unfold mbind, prog_bind, call_classifier. rewrite C, T. reflexivity.
Qed.

End Detection.

(** The raw label as it would arrive from the model, in capitals and in
    mixed case, and a label outside the table.  The lookup itself is
    exact: without the lowering, [JOY] is not a key. *)
Example normalize_examples :
  _normalize_emotion "JOY" = "neutral" /\
  _normalize_emotion (lower "JOY") = "joy" /\
  _normalize_emotion (lower "Happiness") = "joy" /\
  _normalize_emotion (lower "NEGATIVE") = "sadness" /\
  _normalize_emotion (lower "Disgust") = "neutral" /\
  _normalize_emotion (lower "boredom") = "neutral" /\
  value (detect_emotion (ext := Stub.external) "I feel great" Stub.happy)
  = {| emotion := "joy"; confidence := decimal 92 100;
       raw_prediction := Some {| label := "JOY"; score := decimal 92 100 |};
       normalized_emotion := "joy" |}.
Proof. repeat split; vm_compute; reflexivity. Qed.

(** Matching without regard to case: labels that differ only in the
    case of letters are lowered to the same label. *)
Section IgnoringCase.

Lemma ascii_code_inj (a b : ascii) : N_of_ascii a = N_of_ascii b -> a = b.
Proof.
  intros H. rewrite <- (ascii_N_embedding a), <- (ascii_N_embedding b), H.
  reflexivity.
Qed.

Lemma capital_lowered (a : ascii) :
  (65 <=? N_of_ascii a)%N && (N_of_ascii a <=? 90)%N = true ->
  lower_char a = ascii_of_N (N_of_ascii a + 32) /\
  lower_char (ascii_of_N (N_of_ascii a + 32)) = ascii_of_N (N_of_ascii a + 32).
Proof.
  destruct a as [[] [] [] [] [] [] [] []]; vm_compute; intros H;
    try discriminate H; split; reflexivity.
Qed.

Lemma same_letter_lower (a b : ascii) :
  same_letter a b = true -> lower_char a = lower_char b.
Proof.
  unfold same_letter. cbv zeta. intros H.
  apply orb_prop in H as [H|H]; [apply orb_prop in H as [H|H]|].
  - apply N.eqb_eq, ascii_code_inj in H. subst b. reflexivity.
  - apply andb_prop in H as [C E]. apply N.eqb_eq in E.
    destruct (capital_lowered a C) as [La Lb].
    assert (B : b = ascii_of_N (N_of_ascii a + 32))
      by (rewrite <- E; symmetry; apply ascii_N_embedding).
    rewrite La, B, Lb. reflexivity.
  - apply andb_prop in H as [C E]. apply N.eqb_eq in E.
    destruct (capital_lowered b C) as [Lb La].
    assert (A : a = ascii_of_N (N_of_ascii b + 32))
      by (rewrite <- E; symmetry; apply ascii_N_embedding).
    rewrite Lb, A, La. reflexivity.
Qed.

Lemma matches_lower : forall a b : string,
  matches_ignoring_case a b = true -> lower a = lower b.
Proof.
  induction a as [|c a IH]; intros [|d b] H; simpl in H; try discriminate H.
  - reflexivity.
  - apply andb_prop in H as [Hc Hs]. simpl.
    rewrite (same_letter_lower c d Hc), (IH b Hs). reflexivity.
Qed.

Lemma small_letter_matches (a : ascii) :
  small_letter (lower_char a) = true -> same_letter a (lower_char a) = true.
Proof.
  destruct a as [[] [] [] [] [] [] [] []]; vm_compute; intros H;
    try discriminate H; reflexivity.
Qed.

Lemma small_word_matches : forall a : string,
  small_word (lower a) = true -> matches_ignoring_case a (lower a) = true.
Proof.
  induction a as [|c a IH]; simpl; [reflexivity|].
  intros H. apply andb_prop in H as [Hc Hs].
  rewrite (small_letter_matches c Hc), (IH Hs). reflexivity.
Qed.

(** The labels of the policy table are words of small letters. *)
Lemma policy_keys_small (key : string) :
  In key (map fst policy_table) -> small_word key = true /\ lower key = key.
Proof.
  simpl. intros H.
  repeat (destruct H as [<-|H]; [split; vm_compute; reflexivity|]).
  destruct H.
Qed.

Lemma policy_key_of_entry (key e : string) :
  In (key, e) policy_table -> In key (map fst policy_table).
Proof. intros H. apply in_map_iff. exists (key, e). auto. Qed.

(** A label that matches a table label goes where that label goes. *)
Lemma normalize_matching (raw key e : string) :
  In (key, e) policy_table -> matches_ignoring_case raw key = true ->
  _normalize_emotion (lower raw) = e.
Proof.
  intros H M. rewrite (matches_lower raw key M).
  destruct (policy_keys_small key (policy_key_of_entry key e H)) as [_ ->].
  apply normalize_policy, H.
Qed.

(** A label that matches no table label goes to [neutral]. *)
Lemma normalize_matching_none (raw : string) :
  (forall key, In key (map fst policy_table) ->
               matches_ignoring_case raw key = false) ->
  _normalize_emotion (lower raw) = "neutral".
Proof.
  intros H. apply normalize_unlisted. intros C.
  destruct (policy_keys_small _ C) as [S _].
  pose proof (small_word_matches raw S) as M.
  rewrite (H _ C) in M. discriminate M.
Qed.

End IgnoringCase.

(** C3: normalisation is a total function of the raw label alone, and
    the label is matched without regard to case: a raw label that
    differs from a label of the policy table only in the case of its
    letters goes to the canonical emotion documented for that label, a
    raw label that matches no table label goes to [neutral], and two
    raw labels that differ only in case normalise alike.  This is the
    normalisation [detect_emotion] applies to the label of the model's
    prediction: it lowers the label and looks it up. *)
Theorem C3_normalize_emotion :
  forall raw : string,
    (forall key e : string,
        In (key, e) policy_table ->
        matches_ignoring_case raw key = true ->
        _normalize_emotion (lower raw) = e) /\
    ((forall key : string,
         In key (map fst policy_table) ->
         matches_ignoring_case raw key = false) ->
     _normalize_emotion (lower raw) = "neutral") /\
    (forall raw' : string,
        matches_ignoring_case raw raw' = true ->
        _normalize_emotion (lower raw') = _normalize_emotion (lower raw)) /\
    (forall (World : Type) (E : External World) (text : string) (w w' : World)
            (v : ClassifierValue) (p : Prediction),
        blank text = false ->
        classifier (strip text) w = (Returned v, w') ->
        top_of v = Returned p ->
        label p = raw ->
        normalized_emotion (value (detect_emotion text w))
        = _normalize_emotion (lower raw)).
Proof.
  intros raw. repeat split.
  - intros key e. apply normalize_matching.
  - apply normalize_matching_none.
  - intros raw' M. rewrite (matches_lower raw raw' M). reflexivity.
  - intros World E text w w' v p B C T <-.
    rewrite (detect_returned text w w' v p B C T). reflexivity.
Qed.

Lemma C3_normalize_emotion_witness :
  In ("joy", "joy") policy_table /\
  matches_ignoring_case "JOY" "joy" = true /\
  _normalize_emotion (lower "JOY") = "joy" /\
  matches_ignoring_case "JOY" "Joy" = true /\
  _normalize_emotion (lower "Joy") = _normalize_emotion (lower "JOY") /\
  blank "I feel great" = false /\
  normalized_emotion
    (value (detect_emotion (ext := Stub.external) "I feel great" Stub.happy))
  = _normalize_emotion (lower "JOY").
Proof.
  assert (I : In ("joy", "joy") policy_table) by (left; reflexivity).
  destruct (C3_normalize_emotion "JOY") as (K & _ & S & D).
  split; [exact I|]. split; [reflexivity|].
  split; [exact (K "joy" "joy" I eq_refl)|].
  split; [reflexivity|].
  split; [exact (S "Joy" eq_refl)|].
  split; [reflexivity|].
  exact (D Stub.World Stub.external "I feel great" Stub.happy
           (Stub.tick Stub.happy)
           (PredictionList [ {| label := "JOY"; score := decimal 92 100 |} ])
           {| label := "JOY"; score := decimal 92 100 |}
           eq_refl eq_refl eq_refl eq_refl).
Defined.

(** C6: on empty or white-space-only text the detector returns the
    neutral result -- no raw prediction, confidence 0.0, normalised
    emotion [neutral], tier [very_low] -- and the classifier is not
    called: no event is emitted and the world is unchanged. *)
Theorem C6_blank_text_is_neutral :
  forall (World : Type) (E : External World) (text : string) (w : World),
    blank text = true ->
    let r := detect_emotion text w in
    value r = neutral_result /\
    raw_prediction (value r) = None /\
    confidence (value r) = 0.0 /\
    normalized_emotion (value r) = "neutral" /\
    get_emotion_confidence_level (confidence (value r)) = "very_low" /\
    events r = [] /\
    world_after r = w.
Proof.
  intros World E text w B r. subst r. rewrite (detect_blank text w B).
  repeat split.
Qed.

Lemma C6_blank_text_witness :
  blank "   " = true /\
  let r := detect_emotion (ext := Stub.external) "   " Stub.happy in
  value r = neutral_result /\
  raw_prediction (value r) = None /\
  confidence (value r) = 0.0 /\
  normalized_emotion (value r) = "neutral" /\
  get_emotion_confidence_level (confidence (value r)) = "very_low" /\
  events r = [] /\
  world_after r = Stub.happy.
Proof.
  split; [reflexivity|].
  apply (C6_blank_text_is_neutral Stub.World Stub.external "   " Stub.happy).
  reflexivity.
Defined.

(** C7: on text that is not blank, a classifier call that raises is
    absorbed: the detector returns the same neutral result as for blank
    text, after the one call and the one error line. *)
Theorem C7_classifier_failure_is_neutral :
  forall (World : Type) (E : External World) (text : string) (w : World),
    blank text = false ->
    (classifier (strip text) w).1 = Raised ->
    let r := detect_emotion text w in
    value r = neutral_result /\
    raw_prediction (value r) = None /\
    confidence (value r) = 0.0 /\
    normalized_emotion (value r) = "neutral" /\
    events r = [Classified (strip text); Printed MsgDetectionError].
Proof.
  intros World E text w B R r. subst r. rewrite (detect_raised text w B R).
  repeat split.
Qed.

Lemma C7_classifier_failure_witness :
  blank "I feel odd" = false /\
  (classifier (External := Stub.external) (strip "I feel odd") Stub.broken).1
  = Raised /\
  let r := detect_emotion (ext := Stub.external) "I feel odd" Stub.broken in
  value r = neutral_result /\
  raw_prediction (value r) = None /\
  confidence (value r) = 0.0 /\
  normalized_emotion (value r) = "neutral" /\
  events r = [Classified (strip "I feel odd"); Printed MsgDetectionError].
Proof.
  split; [reflexivity|]. split; [reflexivity|].
  apply (C7_classifier_failure_is_neutral
           Stub.World Stub.external "I feel odd" Stub.broken); reflexivity.
Defined.

(* ------------------------------------------------------------------ *)
(** ** Slices *)

Section Slices.

Context {A : Type}.

Lemma slice_to_nonneg (l : list A) (n : Z) :
  0 <= n -> slice_to l n = firstn (Z.to_nat n) l.
Proof.
  intros H. unfold slice_to. destruct (0 <=? n) eqn:E; [reflexivity|].
  apply Z.leb_gt in E. lia.
Qed.

Lemma slice_to_zero (l : list A) : slice_to l 0 = [].
Proof. reflexivity. Qed.

(** A slice is a prefix, whatever the sign of the bound. *)
Lemma slice_to_prefix (l : list A) (n : Z) :
  exists k : nat, slice_to l n = firstn k l.
Proof. unfold slice_to. destruct (0 <=? n); eauto. Qed.

Lemma slice_to_In (l : list A) (n : Z) (x : A) :
  In x (slice_to l n) -> In x l.
Proof.
  destruct (slice_to_prefix l n) as [k ->]. intros H.
  apply list_elem_of_In. apply (subseteq_take k l).
  apply list_elem_of_In. exact H.
Qed.

End Slices.

Lemma slice_to_NoDup_map {A B : Type} (f : A -> B) (l : list A) (n : Z) :
  NoDup (map f l) -> NoDup (map f (slice_to l n)).
Proof.
  destruct (slice_to_prefix l n) as [k ->]. intros H.
  rewrite <- firstn_map. exact (sublist_NoDup _ _ H (sublist_take _ k)).
Qed.

(* ------------------------------------------------------------------ *)
(** ** Removing duplicates *)

Section Dedup.

Lemma has_key_In {V : Type} (k : string) (d : list (string * V)) :
  has_key k d = true <-> In k (map fst d).
Proof.
  unfold has_key. rewrite existsb_exists. split.
  - intros ([k' v] & Hin & E). apply String.eqb_eq in E. simpl in E. subst k'.
    apply in_map_iff. exists (k, v). auto.
  - intros H. apply in_map_iff in H as ([k' v] & E & Hin). simpl in E. subst k'.
    exists (k, v). split; trivial. apply String.eqb_refl.
Qed.

Lemma first_with_id_skip id m l :
  imdb_id m <> id -> first_with_id id (m :: l) = first_with_id id l.
Proof.
  intros N. unfold first_with_id. simpl.
  destruct (String.eqb (imdb_id m) id) eqn:E; [|reflexivity].
  apply String.eqb_eq in E. contradiction.
Qed.

Lemma first_with_id_head m l : first_with_id (imdb_id m) (m :: l) = Some m.
Proof. unfold first_with_id. simpl. rewrite String.eqb_refl. reflexivity. Qed.

(** The keys stay distinct. *)
Lemma remove_duplicates_NoDup l : forall acc,
  NoDup (map fst acc) -> NoDup (map fst (remove_duplicates l acc)).
Proof.
  induction l as [|movie rest IH]; intros acc N; simpl; [exact N|].
  destruct (has_key (imdb_id movie) acc) eqn:K; simpl.
  - apply IH, N.
  - apply IH. rewrite map_app. simpl.
    apply NoDup_app. repeat split; trivial.
    + intros k Hk Hk'. apply list_elem_of_In in Hk.
      apply list_elem_of_In in Hk'. destruct Hk' as [<-|[]].
      apply has_key_In in Hk. congruence.
    + apply NoDup_singleton.
Qed.

(** An entry is either one the dictionary started with, or it was made
    from the first record of the list that carries its key. *)
Lemma remove_duplicates_entry l : forall acc k m,
  In (k, m) (remove_duplicates l acc) ->
  In (k, m) acc \/
  (~ In k (map fst acc) /\ k = imdb_id m /\ first_with_id k l = Some m).
Proof.
  induction l as [|movie rest IH]; intros acc k m H; simpl in H; [auto|].
  destruct (has_key (imdb_id movie) acc) eqn:K; simpl in H.
  - apply has_key_In in K.
    destruct (IH _ _ _ H) as [Hacc|(Hk & E & F)]; [auto|].
    right. repeat split; trivial.
    rewrite first_with_id_skip; [exact F|]. intros C. rewrite C in K. contradiction.
  - assert (K' : ~ In (imdb_id movie) (map fst acc)).
    { intros C. apply has_key_In in C. congruence. }
    destruct (IH _ _ _ H) as [Hacc|(Hk & E & F)].
    + apply in_app_or in Hacc as [Hacc|[E|[]]]; [auto|].
      injection E as <- <-. right. repeat split; trivial.
      apply first_with_id_head.
    + right. rewrite map_app, in_app_iff in Hk. simpl in Hk.
      repeat split; [tauto | exact E |].
      rewrite first_with_id_skip; [exact F|]. tauto.
Qed.

(** Every record of the list is represented by its key. *)
Lemma remove_duplicates_keeps_acc l : forall acc k,
  In k (map fst acc) -> In k (map fst (remove_duplicates l acc)).
Proof.
  induction l as [|movie rest IH]; intros acc k H; simpl; [exact H|].
  destruct (has_key (imdb_id movie) acc); simpl; apply IH; trivial.
  rewrite map_app, in_app_iff. auto.
Qed.

Lemma remove_duplicates_complete l : forall acc m,
  In m l -> In (imdb_id m) (map fst (remove_duplicates l acc)).
Proof.
  induction l as [|movie rest IH]; intros acc m H; [destruct H|].
  simpl. destruct H as [->|H].
  - destruct (has_key (imdb_id m) acc) eqn:K; simpl;
      apply remove_duplicates_keeps_acc.
    + apply has_key_In, K.
    + rewrite map_app, in_app_iff. simpl. auto.
  - destruct (has_key (imdb_id movie) acc); simpl; apply IH, H.
Qed.

(** Started from the empty dictionary: the values are pairwise distinct
    by identifier, and each is the first record with its identifier. *)
Lemma dedup_first_wins l m :
  In m (dict_values (remove_duplicates l [])) ->
  first_with_id (imdb_id m) l = Some m.
Proof.
  unfold dict_values. intros H.
  apply in_map_iff in H as ([k m'] & E & H). simpl in E. subst m'.
  destruct (remove_duplicates_entry l [] k m H) as [[]|(_ & -> & F)].
  exact F.
Qed.

Lemma dedup_ids l :
  map imdb_id (dict_values (remove_duplicates l []))
  = map fst (remove_duplicates l []).
Proof.
  unfold dict_values. rewrite map_map. apply map_ext_in.
  intros [k m] H. simpl.
  destruct (remove_duplicates_entry l [] k m H) as [[]|(_ & -> & _)].
  reflexivity.
Qed.

Lemma dedup_NoDup l :
  NoDup (map imdb_id (dict_values (remove_duplicates l []))).
Proof.
  rewrite dedup_ids. apply remove_duplicates_NoDup. constructor.
Qed.

(** The pool has exactly the identifiers of the list, each once. *)
Lemma dedup_same_ids l id :
  In id (map imdb_id (dict_values (remove_duplicates l [])))
  <-> In id (map imdb_id l).
Proof.
  split.
  - intros H. apply in_map_iff in H as (m & <- & H).
    apply dedup_first_wins in H. apply find_some in H as [H _].
    apply in_map. exact H.
  - intros H. apply in_map_iff in H as (m & <- & H).
    rewrite dedup_ids. apply remove_duplicates_complete, H.
Qed.

Lemma dedup_size l :
  length (dict_values (remove_duplicates l [])) = length (distinct_ids l).
Proof.
  rewrite <- (length_map imdb_id (dict_values (remove_duplicates l []))).
  apply Permutation_length. apply NoDup_Permutation.
  - apply dedup_NoDup.
  - apply (proj2 (NoDup_ListNoDup _)), NoDup_nodup.
  - intros id. rewrite !list_elem_of_In. unfold distinct_ids.
    rewrite nodup_In. apply dedup_same_ids.
Qed.

End Dedup.

(* ------------------------------------------------------------------ *)
(** ** Runs of the recommender *)

Section Recommender.

Context {World : Type} {ext : External World}.

Lemma search_each_events genres limit : forall acc (w : World),
  events (search_each genres limit acc w) = map (fun g => Searched g limit) genres.
Proof.
  induction genres as [|g rest IH]; intros acc w; [reflexivity|].
  simpl. unfold mbind, prog_bind, call_search.
  destruct (search_movies_by_genre g limit w) as [ms w1].
  specialize (IH (acc ++ ms) w1).
  destruct (search_each rest limit (acc ++ ms) w1) as [[v t] w2].
  unfold events in *. simpl in *. rewrite IH. reflexivity.
Qed.

(** The gathered records are the answers of the searches, one search
    per genre, appended in the order of the genre list. *)
Lemma search_each_value genres limit : forall acc (w : World),
  exists answers : list (list Movie),
    value (search_each genres limit acc w) = acc ++ concat answers /\
    Forall2 (fun g ms => exists w', ms = (search_movies_by_genre g limit w').1)
            genres answers.
Proof.
  induction genres as [|g rest IH]; intros acc w.
  - exists []. split; [|constructor]. simpl. rewrite app_nil_r. reflexivity.
  - simpl. unfold mbind, prog_bind, call_search.
    destruct (search_movies_by_genre g limit w) as [ms w1] eqn:S.
    destruct (IH (acc ++ ms) w1) as (answers & V & F).
    destruct (search_each rest limit (acc ++ ms) w1) as [[v t] w2].
    unfold value in *. simpl in *. subst v.
    exists (ms :: answers). split.
    + simpl. rewrite app_assoc. reflexivity.
    + constructor; [|exact F]. exists w. rewrite S. reflexivity.
Qed.

Lemma search_requests_of_searches genres limit :
  search_requests (map (fun g => Searched g limit) genres)
  = map (fun g => (g, limit)) genres.
Proof. induction genres as [|g rest IH]; simpl; congruence. Qed.

(** One call, step by step. *)
Lemma recommend_run (emotion : string) (n : Z) (w : World) :
  let genres := get_genres_for_emotion emotion in
  let limit := movies_per_genre n genres in
  let found := search_each genres limit [] w in
  let pool := unique_pool emotion n w in
  let shuffled := shuffle pool (world_after found) in
  recommend_movies emotion n w
  = (slice_to shuffled.1 n,
     Printed (MsgFindingForEmotion emotion) :: Printed (MsgMatchingGenres genres)
       :: map (fun g => Searched g limit) genres
       ++ [Shuffled pool; Printed (MsgFound (length (slice_to shuffled.1 n)))],
     shuffled.2).
Proof.
  intros genres limit found pool shuffled.
  pose proof (search_each_events genres limit [] w) as Ev.
  subst shuffled pool found. unfold unique_pool, gathered.
  fold genres. fold limit.
  unfold recommend_movies, mbind, prog_bind, print, call_shuffle, mret, prog_ret.
  fold genres. fold limit.
  destruct (search_each genres limit [] w) as [[all t] w1].
  unfold events, value, world_after in *. simpl in *. subst t.
  destruct (shuffle (dict_values (remove_duplicates all [])) w1) as [l' w2].
  reflexivity.
Qed.

Lemma recommend_value (emotion : string) (n : Z) (w : World) :
  exists w', value (recommend_movies emotion n w)
             = slice_to (shuffle (unique_pool emotion n w) w').1 n.
Proof.
  pose proof (recommend_run emotion n w) as R. simpl in R. rewrite R.
  eexists. reflexivity.
Qed.

Lemma recommend_requests (emotion : string) (n : Z) (w : World) :
  search_requests (events (recommend_movies emotion n w))
  = map (fun g => (g, movies_per_genre n (get_genres_for_emotion emotion)))
        (get_genres_for_emotion emotion).
Proof.
  pose proof (recommend_run emotion n w) as R. simpl in R. rewrite R.
  unfold events. simpl. unfold search_requests. rewrite omap_app. simpl.
  rewrite app_nil_r. apply search_requests_of_searches.
Qed.

Lemma searches_not_flagged genres limit :
  advisory_flagged (map (fun g => Searched g limit) genres) = false.
Proof. induction genres as [|g rest IH]; simpl; trivial. Qed.

Lemma recommend_not_flagged (emotion : string) (n : Z) (w : World) :
  advisory_flagged (events (recommend_movies emotion n w)) = false.
Proof.
  pose proof (recommend_run emotion n w) as R. simpl in R. rewrite R.
  unfold events, advisory_flagged. simpl. rewrite existsb_app.
  fold (advisory_flagged
          (map (fun g => Searched g (movies_per_genre n (get_genres_for_emotion emotion)))
               (get_genres_for_emotion emotion))).
  rewrite searches_not_flagged. reflexivity.
Qed.

Section WithPermutation.

Hypothesis shuffle_permutes :
  forall (l : list Movie) (w : World), Permutation (shuffle l w).1 l.

Lemma recommend_from_pool emotion n w m :
  In m (value (recommend_movies emotion n w)) ->
  In m (unique_pool emotion n w).
Proof.
  destruct (recommend_value emotion n w) as [w' ->]. intros H.
  apply slice_to_In in H.
  exact (Permutation_in _ (shuffle_permutes _ _) H).
Qed.

Lemma recommend_NoDup emotion n w :
  NoDup (map imdb_id (value (recommend_movies emotion n w))).
Proof.
  destruct (recommend_value emotion n w) as [w' ->].
  apply slice_to_NoDup_map.
  rewrite (Permutation_map imdb_id (shuffle_permutes _ w')).
  apply dedup_NoDup.
Qed.

Lemma recommend_length emotion n w :
  0 <= n ->
  length (value (recommend_movies emotion n w))
  = Nat.min (Z.to_nat n) (length (unique_pool emotion n w)).
Proof.
  intros Hn. destruct (recommend_value emotion n w) as [w' ->].
  rewrite (slice_to_nonneg _ n Hn), length_firstn.
  rewrite (Permutation_length (shuffle_permutes _ _)). reflexivity.
Qed.

End WithPermutation.

End Recommender.

(* ------------------------------------------------------------------ *)
(** ** The stub world behaves as an outside world should *)

Lemma stub_shuffle_permutes :
  forall (l : list Movie) (w : Stub.World),
    Permutation (shuffle (External := Stub.external) l w).1 l.
Proof. intros l w. simpl. symmetry. apply Permutation_rev. Qed.

(* ------------------------------------------------------------------ *)
(** ** The per-genre quota *)

(** C1, as stated, fails: for [joy] (five genres) and a count of 3 the
    claim has every search ask for [3 // 5 + 1 = 1] record, the code
    asks for [max(1, 3 // 5) + 1 = 2]. *)
Lemma C1_quota_counterexample :
  ~ (forall (g : string) (l : Z),
        In (g, l)
           (search_requests
              (events (recommend_movies (ext := Stub.external)
                                        "joy" 3 Stub.happy))) ->
        l = 3 / Z.of_nat (length (get_genres_for_emotion "joy")) + 1).
Proof.
  intros H. specialize (H "Comedy" 2).
  assert (E : 2 = 3 / Z.of_nat (length (get_genres_for_emotion "joy")) + 1).
  { apply H. vm_compute. left. reflexivity. }
  vm_compute in E. discriminate E.
Qed.

(** C1, amended: for every emotion, with [G] genres in its list, and
    every count of at least 1, each per-genre search is asked for
    exactly [max(1, floor(count / G)) + 1] records; for [joy] and a
    count of 3 that is 2. *)
Theorem C1_per_genre_quota :
  forall (World : Type) (ext : External World)
         (emotion : string) (count : Z) (w : World),
    1 <= count ->
    let genres := get_genres_for_emotion emotion in
    let G := Z.of_nat (length genres) in
    search_requests (events (recommend_movies emotion count w))
    = map (fun g => (g, Z.max 1 (count / G) + 1)) genres.
Proof.
  intros World ext emotion count w _ genres G.
  apply recommend_requests.
Qed.

Lemma C1_per_genre_quota_witness :
  1 <= 3 /\
  search_requests
    (events (recommend_movies (ext := Stub.external) "joy" 3 Stub.happy))
  = [("Comedy", 2); ("Romance", 2); ("Family", 2); ("Animation", 2);
     ("Musical", 2)].
Proof.
  split; [lia|].
  refine (eq_trans
            (C1_per_genre_quota Stub.World Stub.external "joy" 3 Stub.happy _)
            _).
  - lia.
  - vm_compute. reflexivity.
Defined.

(** C10: a count of 0 is not rejected; every genre is still searched,
    each search is asked for [max(1, 0) + 1 = 2] records, and the call
    returns the empty list. *)
Theorem C10_count_zero :
  forall (World : Type) (ext : External World) (emotion : string) (w : World),
    search_requests (events (recommend_movies emotion 0 w))
    = map (fun g => (g, 2)) (get_genres_for_emotion emotion) /\
    Z.max 1 0 + 1 = 2 /\
    get_genres_for_emotion emotion <> [] /\
    value (recommend_movies emotion 0 w) = [].
Proof.
  intros World ext emotion w. repeat split.
  - rewrite recommend_requests. unfold movies_per_genre.
    rewrite Zdiv_0_l. reflexivity.
  - intros E. pose proof (genres_length emotion) as L. rewrite E in L.
    simpl in L. destruct L; discriminate.
  - destruct (recommend_value emotion 0 w) as [w' ->]. apply slice_to_zero.
Qed.

(* ------------------------------------------------------------------ *)
(** ** Deduplication and size *)

(** C8: the output holds at most one record per catalogue identifier,
    and each output record is the first record with its identifier
    among the records gathered from the genre searches in table order. *)
Theorem C8_dedup_first_wins :
  forall (World : Type) (ext : External World)
         (emotion : string) (count : Z) (w : World),
    (forall (l : list Movie) (w' : World), Permutation (shuffle l w').1 l) ->
    let out := value (recommend_movies emotion count w) in
    let all_movies := gathered emotion count w in
    List.NoDup (map imdb_id out) /\
    (forall m : Movie,
        In m out -> first_with_id (imdb_id m) all_movies = Some m).
Proof.
  intros World ext emotion count w P out all_movies. split.
  - apply NoDup_ListNoDup. apply recommend_NoDup, P.
  - intros m H. apply dedup_first_wins.
    exact (recommend_from_pool P emotion count w m H).
Qed.

Lemma C8_dedup_first_wins_witness :
  (forall (l : list Movie) (w' : Stub.World),
      Permutation (shuffle (External := Stub.external) l w').1 l) /\
  gathered (ext := Stub.external) "joy" 3 Stub.happy
  = [Stub.movie "tt001" "First title"; Stub.movie "tt002" "Second film";
     Stub.movie "tt001" "Other title"; Stub.movie "tt003" "Third film"] /\
  value (recommend_movies (ext := Stub.external) "joy" 3 Stub.happy)
  = [Stub.movie "tt003" "Third film"; Stub.movie "tt002" "Second film";
     Stub.movie "tt001" "First title"] /\
  List.NoDup
    (map imdb_id
         (value (recommend_movies (ext := Stub.external) "joy" 3 Stub.happy))) /\
  (forall m : Movie,
      In m (value (recommend_movies (ext := Stub.external) "joy" 3 Stub.happy)) ->
      first_with_id (imdb_id m)
                    (gathered (ext := Stub.external) "joy" 3 Stub.happy)
      = Some m).
Proof.
  split; [exact stub_shuffle_permutes|].
  split; [vm_compute; reflexivity|].
  split; [vm_compute; reflexivity|].
  exact (C8_dedup_first_wins Stub.World Stub.external "joy" 3 Stub.happy
                             stub_shuffle_permutes).
Defined.

(** C9: for a count of at least 1 the output has [min(count, P)]
    records, [P] being the size of the deduplicated candidate pool, that
    is the number of distinct catalogue identifiers among the records
    gathered from the genre searches; no two output records share a
    catalogue identifier, each carries an identifier of a gathered
    record; and when [P = 0] the result is the empty list, an ordinary
    result. *)
Theorem C9_output_size :
  forall (World : Type) (ext : External World)
         (emotion : string) (count : Z) (w : World),
    (forall (l : list Movie) (w' : World), Permutation (shuffle l w').1 l) ->
    1 <= count ->
    let out := value (recommend_movies emotion count w) in
    let pool := unique_pool emotion count w in
    let P := length (distinct_ids (gathered emotion count w)) in
    length pool = P /\
    Z.of_nat (length out) = Z.min count (Z.of_nat P) /\
    List.NoDup (map imdb_id out) /\
    (forall m : Movie,
        In m out -> In (imdb_id m) (distinct_ids (gathered emotion count w))) /\
    (P = 0%nat -> out = []) /\
    (pool = [] -> out = []).
Proof.
  intros World ext emotion count w Perm Hc out pool P.
  assert (S : length pool = P) by apply dedup_size.
  assert (L : length out = Nat.min (Z.to_nat count) (length pool)).
  { apply recommend_length; [exact Perm | lia]. }
  assert (Z : length pool = 0%nat -> out = []).
  { intros E. rewrite E, Nat.min_0_r in L.
    destruct out; [reflexivity | discriminate L]. }
  repeat split.
  - exact S.
  - rewrite L, S. lia.
  - apply NoDup_ListNoDup. apply recommend_NoDup, Perm.
  - intros m H. unfold distinct_ids. apply nodup_In.
    apply (recommend_from_pool Perm) in H.
    apply dedup_same_ids. apply in_map. exact H.
  - intros E. apply Z. rewrite S. exact E.
  - intros E. apply Z. rewrite E. reflexivity.
Qed.

Lemma C9_output_size_witness :
  (forall (l : list Movie) (w' : Stub.World),
      Permutation (shuffle (External := Stub.external) l w').1 l) /\
  1 <= 2 /\
  gathered (ext := Stub.external) "joy" 2 Stub.happy
  = [Stub.movie "tt001" "First title"; Stub.movie "tt002" "Second film";
     Stub.movie "tt001" "Other title"; Stub.movie "tt003" "Third film"] /\
  distinct_ids (gathered (ext := Stub.external) "joy" 2 Stub.happy)
  = ["tt002"; "tt001"; "tt003"] /\
  value (recommend_movies (ext := Stub.external) "joy" 2 Stub.happy)
  = [Stub.movie "tt003" "Third film"; Stub.movie "tt002" "Second film"] /\
  let out := value (recommend_movies (ext := Stub.external) "joy" 2 Stub.happy) in
  let pool := unique_pool (ext := Stub.external) "joy" 2 Stub.happy in
  let P := length (distinct_ids
                     (gathered (ext := Stub.external) "joy" 2 Stub.happy)) in
  length pool = P /\
  Z.of_nat (length out) = Z.min 2 (Z.of_nat P) /\
  List.NoDup (map imdb_id out) /\
  (forall m : Movie,
      In m out ->
      In (imdb_id m)
         (distinct_ids (gathered (ext := Stub.external) "joy" 2 Stub.happy))) /\
  (P = 0%nat -> out = []) /\
  (pool = [] -> out = []).
Proof.
  split; [exact stub_shuffle_permutes|]. split; [lia|].
  split; [vm_compute; reflexivity|].
  split; [vm_compute; reflexivity|].
  split; [vm_compute; reflexivity|].
  apply (C9_output_size Stub.World Stub.external "joy" 2 Stub.happy
                        stub_shuffle_permutes).
  lia.
Defined.

(** The pool of the run above has three records, so two are returned;
    with nothing on the shelves none is. *)
Example size_examples :
  length (unique_pool (ext := Stub.external) "joy" 2 Stub.happy) = 3%nat /\
  length (value (recommend_movies (ext := Stub.external) "joy" 2 Stub.happy))
  = 2%nat /\
  length (value (recommend_movies (ext := Stub.external) "joy" 5 Stub.happy))
  = 3%nat /\
  value (recommend_movies (ext := Stub.external) "joy" 3 Stub.broken) = [].
Proof. repeat split; vm_compute; reflexivity. Qed.

(* ------------------------------------------------------------------ *)
(** ** Runs of the orchestrator *)

Lemma flagged_app (a b : list Event) :
  advisory_flagged (a ++ b) = advisory_flagged a || advisory_flagged b.
Proof. apply existsb_app. Qed.

Lemma flagged_cons (x : Event) (a : list Event) :
  advisory_flagged (x :: a)
  = match x with Printed MsgLowConfidence => true | _ => false end
    || advisory_flagged a.
Proof. reflexivity. Qed.

Section Orchestrator.

Context {World : Type} {ext : External World}.

Lemma detect_not_flagged (text : string) (w : World) :
  advisory_flagged (events (detect_emotion text w)) = false.
Proof.
  destruct (blank text) eqn:B.
  - rewrite (detect_blank text w B). reflexivity.
  - destruct (classifier (strip text) w) as [[v|] w'] eqn:C.
    + destruct (top_of v) as [p|] eqn:T.
      * rewrite (detect_returned text w w' v p B C T). reflexivity.
      * rewrite (detect_no_top text w w' v B C T). reflexivity.
    + rewrite (detect_raised text w B); [reflexivity|].
      rewrite C. reflexivity.
Qed.

(** One run, step by step: detection, the advisory when the confidence
    is below 0.4, the recommender on the normalised emotion and the
    count, and the closing line. *)
Lemma analyze_run (text : string) (n : Z) (w : World) :
  let found := detect_emotion text w in
  let e := normalized_emotion (value found) in
  let c := confidence (value found) in
  let picked := recommend_movies e n (world_after found) in
  let run := analyze_mood_and_recommend text n w in
  events run
  = Printed (MsgAnalyzing text) :: events found
    ++ Printed (MsgDetected e c (get_emotion_confidence_level c))
    :: (if lt c 0.4 then [Printed MsgLowConfidence] else [])
    ++ Printed (MsgFindingForMood e) :: events picked
    ++ [closing_line (value picked) e] /\
  world_after run = world_after picked /\
  recommendations <$> value run
  = match value picked with [] => None | ms => Some ms end.
Proof.
  unfold analyze_mood_and_recommend, mbind, prog_bind, print, mret, prog_ret.
  destruct (detect_emotion text w) as [[r t] w1].
  unfold events, value, world_after. simpl.
  destruct (lt (confidence r) 0.4);
    destruct (recommend_movies (normalized_emotion r) n w1) as [[ms t2] w2];
    destruct ms; simpl; auto.
Qed.

Lemma analyze_flagged (text : string) (n : Z) (w : World) :
  advisory_flagged (events (analyze_mood_and_recommend text n w))
  = lt (confidence (value (detect_emotion text w))) 0.4.
Proof.
  destruct (analyze_run text n w) as (E & _). rewrite E. clear E.
  repeat (rewrite flagged_cons || rewrite flagged_app).
  rewrite detect_not_flagged, recommend_not_flagged. simpl.
  destruct (lt (confidence (value (detect_emotion text w))) 0.4); simpl;
    [reflexivity|].
  destruct (value (recommend_movies _ _ _)); reflexivity.
Qed.

End Orchestrator.

(** C2, as stated, fails: a score of 0.5 has tier [low], and the run
    prints no advisory. *)
Lemma C2_low_tier_counterexample :
  let run :=
    analyze_mood_and_recommend (ext := Stub.external) "so-so" 3 Stub.unsure in
  let c := confidence (value (detect_emotion (ext := Stub.external)
                                             "so-so" Stub.unsure)) in
  c = decimal 5 10 /\
  get_emotion_confidence_level c = "low" /\
  advisory_flagged (events run) = false.
Proof. repeat split; vm_compute; reflexivity. Qed.

(** C2, amended: the advisory is flagged exactly when the confidence is
    below 0.4 -- for every numeric score of tier [very_low], and for no
    score of tier [low] -- and, flagged or not, the recommender is
    invoked with the normalised emotion and the count. *)
Theorem C2_low_confidence_advisory :
  forall (World : Type) (ext : External World)
         (text : string) (count : Z) (w : World),
    let found := detect_emotion text w in
    let e := normalized_emotion (value found) in
    let c := confidence (value found) in
    let picked := recommend_movies e count (world_after found) in
    let run := analyze_mood_and_recommend text count w in
    advisory_flagged (events run) = lt c 0.4 /\
    (is_nan c = false -> get_emotion_confidence_level c = "very_low" ->
     advisory_flagged (events run) = true) /\
    (get_emotion_confidence_level c = "low" ->
     advisory_flagged (events run) = false) /\
    events run
    = Printed (MsgAnalyzing text) :: events found
      ++ Printed (MsgDetected e c (get_emotion_confidence_level c))
      :: (if lt c 0.4 then [Printed MsgLowConfidence] else [])
      ++ Printed (MsgFindingForMood e) :: events picked
      ++ [closing_line (value picked) e] /\
    world_after run = world_after picked /\
    recommendations <$> value run
    = match value picked with [] => None | ms => Some ms end.
Proof.
  intros World ext text count w found e c picked run.
  pose proof (analyze_flagged text count w) as F. fold found c run in F.
  split; [exact F|]. split; [|split].
  - intros N V. rewrite F. apply very_low_below; trivial.
  - intros L. rewrite F. apply low_not_below, L.
  - apply analyze_run.
Qed.

(** A score of 0.39 is flagged, and the searches for the normalised
    emotion follow the advisory. *)
Example advisory_example :
  let run :=
    analyze_mood_and_recommend (ext := Stub.external) "uneasy" 1 Stub.vague in
  events run
  = [Printed (MsgAnalyzing "uneasy"); Classified "uneasy";
     Printed (MsgDetected "fear" (decimal 39 100) "very_low");
     Printed MsgLowConfidence; Printed (MsgFindingForMood "fear");
     Printed (MsgFindingForEmotion "fear");
     Printed (MsgMatchingGenres ["Family"; "Fantasy"; "Adventure"; "Animation"]);
     Searched "Family" 2; Searched "Fantasy" 2; Searched "Adventure" 2;
     Searched "Animation" 2; Shuffled []; Printed (MsgFound 0);
     Printed MsgNoMovies] /\
  value run = None.
Proof. split; vm_compute; reflexivity. Qed.

(* ------------------------------------------------------------------ *)
(** ** The catalogue search *)

Section CatalogueRuns.

Context {World : Type} {sys : System World}.

Lemma requests_app (t1 t2 : list SysEvent) :
  keyword_requests (t1 ++ t2) = keyword_requests t1 ++ keyword_requests t2 /\
  detail_requests (t1 ++ t2) = detail_requests t1 ++ detail_requests t2.
Proof. split; apply omap_app. Qed.

(** One detail request, whatever the answer; a record only for an
    answer whose [Response] is ['True']. *)
Lemma details_spec (self : Catalogue.MovieRecommender) (id : string) (w : World) :
  let r := Catalogue.get_movie_details self id w in
  let answer :=
    (http_get (Catalogue.api_base_url self)
              (ById (Catalogue.api_key self) id) w).1 in
  detail_requests (trace r) = [id] /\
  keyword_requests (trace r) = [] /\
  (forall m, result r = Some m ->
             imdb_id m = id /\ wellformed m /\
             exists data, answer = Returned data /\
                          json_Response data = Some "True" /\
                          title m = default "N/A" (json_Title data) /\
                          year m = default "N/A" (json_Year data) /\
                          genre m = default "N/A" (json_Genre data) /\
                          director m = default "N/A" (json_Director data) /\
                          plot m = default "N/A" (json_Plot data) /\
                          poster m = default "N/A" (json_Poster data) /\
                          imdb_rating m = default "N/A" (json_imdbRating data)) /\
  (result r = None <->
   match answer with
   | Returned data => json_Response data <> Some "True"
   | Raised => True
   end).
Proof.
  unfold Catalogue.get_movie_details, Catalogue.call_get, mbind, sys_bind.
  destruct (http_get _ _ w) as [[data|] w1]; simpl.
  - assert (T : is_True (json_Response data) = true <->
                json_Response data = Some "True").
    { unfold is_True. destruct (json_Response data) as [s|]; [|split; discriminate].
      rewrite String.eqb_eq. split; congruence. }
    destruct (is_True (json_Response data)) eqn:E; simpl;
      unfold result, trace; simpl;
      (split; [reflexivity|]); (split; [reflexivity|]); split.
    + intros m H. injection H as <-. repeat split.
      exists data. repeat split. apply T. reflexivity.
    + split; [discriminate|]. intros C. exfalso. apply C, T. reflexivity.
    + discriminate.
    + split; [|reflexivity]. intros _ C. apply T in C. discriminate.
  - unfold result, trace; simpl. repeat split; trivial; discriminate.
Qed.

(** The inner loop only appends records it fetched, stops at the
    limit, and asks for no keyword. *)
Lemma details_loop_spec (self : Catalogue.MovieRecommender) (limit : Z) :
  forall (hits : list Hit) (movies : list Movie) (w : World),
    let r := Catalogue.details_loop self hits limit movies w in
    exists added : list Movie,
      (result r).1 = movies ++ added /\
      Forall wellformed added /\
      (forall m, In m added -> In (imdb_id m) (detail_requests (trace r))) /\
      (Z.of_nat (length movies) <= Z.max 0 limit ->
       Z.of_nat (length (movies ++ added)) <= Z.max 0 limit) /\
      (limit <= Z.of_nat (length movies) -> trace r = []) /\
      keyword_requests (trace r) = [].
Proof.
  induction hits as [|hit rest IH]; intros movies w.
  - exists []. simpl. rewrite app_nil_r. repeat split; auto.
  - cbn [Catalogue.details_loop].
    destruct (limit <=? Z.of_nat (length movies)) eqn:E.
    + exists []. simpl. rewrite app_nil_r. repeat split; auto.
    + apply Z.leb_gt in E.
      destruct (json_imdbID hit) as [id|].
      * pose proof (details_spec self id w) as D. simpl in D.
        destruct D as (Dd & Dk & Dm & _).
        unfold mbind, sys_bind.
        destruct (Catalogue.get_movie_details self id w) as [[d t1] w1].
        unfold result, trace in Dd, Dk, Dm. simpl in Dd, Dk, Dm.
        match goal with
        | |- context [Catalogue.details_loop self rest limit ?ms w1] =>
            specialize (IH ms w1);
            destruct (Catalogue.details_loop self rest limit ms w1)
              as [[[ms' f] t2] w2]
        end.
        unfold result, trace in IH |- *. simpl in IH |- *.
        destruct IH as (added & R & W & P & L & _ & K).
        destruct (requests_app t1 t2) as [Ka Da]. rewrite Ka, Da, Dk, Dd, K.
        destruct d as [m0|].
        -- destruct (Dm m0 eq_refl) as (I0 & W0 & _).
           exists (m0 :: added). repeat split.
           ++ rewrite R, <- app_assoc. reflexivity.
           ++ constructor; trivial.
           ++ intros m [<-|H]; [left; auto | right; apply P, H].
           ++ intros H.
              assert (E' : movies ++ m0 :: added = (movies ++ [m0]) ++ added)
                by (rewrite <- app_assoc; reflexivity).
              rewrite E'. apply L. rewrite length_app. simpl. lia.
           ++ intros H. lia.
        -- exists added. repeat split; trivial.
           ++ intros m H. right. apply P, H.
           ++ intros H. lia.
      * exists []. unfold result, trace. simpl. rewrite app_nil_r.
        repeat split; auto.
Qed.

Lemma details_loop_at_limit (self : Catalogue.MovieRecommender) (limit : Z)
  (hits : list Hit) (movies : list Movie) (w : World) :
  limit <= Z.of_nat (length movies) ->
  Catalogue.details_loop self hits limit movies w = (movies, Normal, [], w).
Proof.
  intros H. destruct hits as [|hit rest]; [reflexivity|].
  cbn [Catalogue.details_loop].
  destruct (limit <=? Z.of_nat (length movies)) eqn:E; [reflexivity|].
  apply Z.leb_gt in E. lia.
Qed.

(** One pass of the outer loop: exactly one keyword request; records
    are only appended, each fetched by a detail request; the limit is
    kept. *)
Lemma keyword_step_spec (self : Catalogue.MovieRecommender) (limit : Z)
  (keyword : string) (movies : list Movie) (w : World) :
  let r := Catalogue.keyword_step self keyword limit movies w in
  exists added : list Movie,
    (result r).1 = movies ++ added /\
    Forall wellformed added /\
    (forall m, In m added -> In (imdb_id m) (detail_requests (trace r))) /\
    (Z.of_nat (length movies) <= Z.max 0 limit ->
     Z.of_nat (length (movies ++ added)) <= Z.max 0 limit) /\
    keyword_requests (trace r) = [keyword] /\
    (limit <= Z.of_nat (length movies) ->
     added = [] /\ detail_requests (trace r) = []).
Proof.
  unfold Catalogue.keyword_step, Catalogue.call_get, mbind, sys_bind.
  destruct (http_get _ _ w) as [[data|] w1].
  - assert (A : exists added : list Movie,
      let r :=
        (if is_True (json_Response data) then
           match json_Search data with
           | Some hits => Catalogue.details_loop self hits limit movies
           | None => mret (movies, Normal)
           end
         else mret (movies, Normal)) w1 in
      (result r).1 = movies ++ added /\
      Forall wellformed added /\
      (forall m, In m added -> In (imdb_id m) (detail_requests (trace r))) /\
      (Z.of_nat (length movies) <= Z.max 0 limit ->
       Z.of_nat (length (movies ++ added)) <= Z.max 0 limit) /\
      keyword_requests (trace r) = [] /\
      (limit <= Z.of_nat (length movies) -> added = [] /\ trace r = [])).
    { destruct (is_True (json_Response data));
        [destruct (json_Search data) as [hits|]|];
        try (exists []; simpl; rewrite app_nil_r; repeat split; auto; fail).
      destruct (details_loop_spec self limit hits movies w1)
        as (added & R & W & P & L & T & K).
      exists added. repeat split; trivial.
      - rewrite (details_loop_at_limit self limit hits movies w1 H) in R.
        simpl in R. rewrite <- (app_nil_r movies) in R at 1.
        apply app_inv_head in R. auto.
      - apply T, H. }
    destruct A as (added & A). cbv zeta in A.
    match type of A with
    | context [result ?x] => destruct x as [[[ms f] t1] w2]
    end.
    unfold result, trace in A |- *. simpl in A |- *.
    destruct A as (R & W & P & L & K & T).
    exists added. rewrite K. repeat split; trivial.
    + apply T, H.
    + destruct (T H) as [_ ->]. reflexivity.
  - exists []. unfold result, trace. simpl. rewrite app_nil_r.
    repeat split; auto.
Qed.

(** The outer loop: records are only appended, each was fetched by a
    detail request, the limit is kept, and the keywords asked are an
    initial part of the keywords given, the first one always among
    them. *)
Lemma keywords_loop_spec (self : Catalogue.MovieRecommender) (limit : Z) :
  forall (keywords : list string) (movies : list Movie) (w : World),
    let r := Catalogue.keywords_loop self keywords limit movies w in
    exists added : list Movie,
      (result r).1 = movies ++ added /\
      Forall wellformed added /\
      (forall m, In m added -> In (imdb_id m) (detail_requests (trace r))) /\
      (Z.of_nat (length movies) <= Z.max 0 limit ->
       Z.of_nat (length (movies ++ added)) <= Z.max 0 limit) /\
      keyword_requests (trace r) `prefix_of` keywords /\
      (keywords <> [] -> keyword_requests (trace r) <> []) /\
      (limit <= Z.of_nat (length movies) ->
       added = [] /\ detail_requests (trace r) = [] /\
       keyword_requests (trace r) = firstn 1 keywords).
Proof.
  induction keywords as [|keyword rest IH]; intros movies w.
  - exists []. simpl. rewrite app_nil_r. repeat split; auto.
  - cbn [Catalogue.keywords_loop]. cbv zeta. unfold mbind, sys_bind.
    destruct (keyword_step_spec self limit keyword movies w)
      as (added1 & R1 & W1 & P1 & L1 & K1 & T1).
    destruct (Catalogue.keyword_step self keyword limit movies w)
      as [[[ms f] t1] w1].
    unfold result, trace in R1, P1, K1, T1. simpl in R1, P1, K1, T1. subst ms.
    destruct f.
    + destruct (limit <=? Z.of_nat (length (movies ++ added1))) eqn:E.
      * exists added1. unfold result, trace. simpl. rewrite app_nil_r.
        rewrite K1. repeat split; trivial.
        -- apply prefix_cons, prefix_nil.
        -- discriminate.
        -- apply T1, H.
        -- apply T1, H.
      * apply Z.leb_gt in E.
        destruct (IH (movies ++ added1) w1)
          as (added2 & R2 & W2 & P2 & L2 & K2 & _ & _).
        destruct (Catalogue.keywords_loop self rest limit (movies ++ added1) w1)
          as [[[ms f] t2] w2].
        unfold result, trace in R2, P2, K2 |- *. simpl in R2, P2, K2 |- *.
        subst ms. exists (added1 ++ added2).
        destruct (requests_app t1 t2) as [Ka Da]. rewrite Ka, Da, K1.
        repeat split.
        -- rewrite app_assoc. reflexivity.
        -- apply Forall_app. auto.
        -- intros m H. apply in_app_iff. apply in_app_iff in H.
           destruct H as [H|H]; [left; apply P1, H | right; apply P2, H].
        -- intros H. rewrite app_assoc. apply L2, L1, H.
        -- simpl. apply prefix_cons, K2.
        -- discriminate.
        -- destruct (T1 H) as [-> _]. rewrite app_nil_r in E. lia.
        -- destruct (T1 H) as [-> _]. rewrite app_nil_r in E. lia.
        -- destruct (T1 H) as [-> _]. rewrite app_nil_r in E. lia.
    + exists added1. unfold result, trace. simpl. rewrite app_nil_r.
      rewrite K1. repeat split; trivial.
      * apply prefix_cons, prefix_nil.
      * discriminate.
      * apply T1, H.
      * apply T1, H.
Qed.

End CatalogueRuns.

Section CatalogueSearch.

Context {World : Type} {sys : System World}.

(** Every genre has at least one keyword: each list of the table is
    non-empty and the fallback is a single word. *)
Lemma keywords_for_nonempty (genre : string) :
  Catalogue.keywords_for genre <> [].
Proof.
  unfold Catalogue.keywords_for, dict_get.
  destruct (Catalogue.genre_keywords !! genre) as [ks|] eqn:E; [|discriminate].
  apply elem_of_list_to_map_2, list_elem_of_In in E. simpl in E.
  repeat (destruct E as [E|E]; [injection E as <- <-; discriminate|]).
  destruct E.
Qed.

Lemma search_run (self : Catalogue.MovieRecommender) (genre : string)
  (limit : Z) (w : World) :
  let l := Catalogue.keywords_loop
             self (firstn 3 (Catalogue.keywords_for genre)) limit [] w in
  let r := Catalogue.search_movies_by_genre self genre limit w in
  result r = (result l).1 /\
  keyword_requests (trace r) = keyword_requests (trace l) /\
  detail_requests (trace r) = detail_requests (trace l) /\
  trace r = trace l ++ match (result l).2 with
                       | Exception => [Said (MsgSearchError genre)]
                       | Normal => []
                       end.
Proof.
  unfold Catalogue.search_movies_by_genre, mbind, sys_bind. cbv zeta.
  destruct (Catalogue.keywords_loop _ _ _ _ w) as [[[ms f] t] w1].
  destruct f; unfold result, trace; simpl;
    destruct (requests_app t [Said (MsgSearchError genre)]) as [Ka Da];
    rewrite ?Ka, ?Da, ?app_nil_r; simpl; rewrite ?app_nil_r; auto.
Qed.

Lemma search_length_bound :
  forall (self : Catalogue.MovieRecommender) (genre : string) (limit : Z)
         (w : World),
    Z.of_nat (length (result (Catalogue.search_movies_by_genre
                                self genre limit w)))
    <= Z.max 0 limit.
Proof.
  intros self genre limit w.
  destruct (search_run self genre limit w) as (R & _). cbv zeta in R.
  rewrite R.
  destruct (keywords_loop_spec
              self limit (firstn 3 (Catalogue.keywords_for genre)) [] w)
    as (added & -> & _ & _ & L & _).
  apply L. simpl. lia.
Qed.

(** X1. The search never returns more records than its limit, and none
    when the limit is zero or negative. *)
Theorem search_keeps_limit :
  forall (self : Catalogue.MovieRecommender) (genre : string) (limit : Z)
         (w : World),
    Z.of_nat (length (result (Catalogue.search_movies_by_genre
                                self genre limit w)))
    <= Z.max 0 limit.
Proof. exact search_length_bound. Qed.

(** X2. A search asks the service for at least one and at most three
    keywords, and they are the first keywords of the genre in the order
    of its list. *)
Theorem search_tries_first_keywords :
  forall (self : Catalogue.MovieRecommender) (genre : string) (limit : Z)
         (w : World),
    let asked :=
      keyword_requests
        (trace (Catalogue.search_movies_by_genre self genre limit w)) in
    asked `prefix_of` firstn 3 (Catalogue.keywords_for genre) /\
    (1 <= length asked <= 3)%nat.
Proof.
  intros self genre limit w asked. subst asked.
  destruct (search_run self genre limit w) as (_ & K & _). cbv zeta in K.
  rewrite K.
  destruct (keywords_loop_spec
              self limit (firstn 3 (Catalogue.keywords_for genre)) [] w)
    as (added & _ & _ & _ & _ & P & N & _).
  split; [exact P|].
  apply prefix_length in P. rewrite length_firstn in P.
  assert (F : firstn 3 (Catalogue.keywords_for genre) <> []).
  { pose proof (keywords_for_nonempty genre) as Q.
    destruct (Catalogue.keywords_for genre); [congruence | discriminate]. }
  specialize (N F).
  clear K. destruct (keyword_requests _); [congruence|].
  cbn [length] in *. lia.
Qed.

Lemma search_provenance :
  forall (self : Catalogue.MovieRecommender) (genre : string) (limit : Z)
         (w : World) (m : Movie),
    let r := Catalogue.search_movies_by_genre self genre limit w in
    In m (result r) ->
    In (imdb_id m) (detail_requests (trace r)) /\
    link m = ("https://www.imdb.com/title/" ++ imdb_id m ++ "/")%string.
Proof.
  intros self genre limit w m r H. subst r.
  destruct (search_run self genre limit w) as (R & _ & D & _).
  cbv zeta in R, D. rewrite R in H. rewrite D.
  destruct (keywords_loop_spec
              self limit (firstn 3 (Catalogue.keywords_for genre)) [] w)
    as (added & E & W & P & _).
  rewrite E in H. simpl in H. split; [apply P, H|].
  rewrite Forall_forall in W. apply W. apply list_elem_of_In. exact H.
Qed.

(** X3. Every record a search returns was fetched by a detail request
    of that search for the record's identifier, and carries the IMDb
    link of that identifier. *)
Theorem search_returns_fetched_records :
  forall (self : Catalogue.MovieRecommender) (genre : string) (limit : Z)
         (w : World) (m : Movie),
    let r := Catalogue.search_movies_by_genre self genre limit w in
    In m (result r) ->
    In (imdb_id m) (detail_requests (trace r)) /\
    link m = ("https://www.imdb.com/title/" ++ imdb_id m ++ "/")%string.
Proof. exact search_provenance. Qed.

(** X4. With a limit of zero or less the search still sends one keyword
    request, the first keyword of the genre, sends no detail request,
    and returns the empty list. *)
Theorem search_with_no_room :
  forall (self : Catalogue.MovieRecommender) (genre : string) (limit : Z)
         (w : World),
    limit <= 0 ->
    let r := Catalogue.search_movies_by_genre self genre limit w in
    result r = [] /\
    keyword_requests (trace r) = firstn 1 (Catalogue.keywords_for genre) /\
    detail_requests (trace r) = [].
Proof.
  intros self genre limit w H r. subst r.
  destruct (search_run self genre limit w) as (R & K & D & _).
  cbv zeta in R, K, D. rewrite R, K, D.
  destruct (keywords_loop_spec
              self limit (firstn 3 (Catalogue.keywords_for genre)) [] w)
    as (added & E & _ & _ & _ & _ & _ & T).
  destruct T as (-> & Dz & Kz); [simpl; lia|].
  rewrite E, Dz, Kz. repeat split.
  destruct (Catalogue.keywords_for genre) as [|k [|k2 ks]]; reflexivity.
Qed.

Lemma search_first_failure :
  forall (self : Catalogue.MovieRecommender) (genre : string) (limit : Z)
         (w : World) (keyword : string),
    hd_error (Catalogue.keywords_for genre) = Some keyword ->
    (http_get (Catalogue.api_base_url self)
              (ByKeyword (Catalogue.api_key self) keyword) w).1 = Raised ->
    let r := Catalogue.search_movies_by_genre self genre limit w in
    result r = [] /\
    trace r = [Requested (Catalogue.api_base_url self)
                         (ByKeyword (Catalogue.api_key self) keyword);
               Said (MsgSearchError genre)].
Proof.
  intros self genre limit w keyword K H r. subst r.
  unfold Catalogue.search_movies_by_genre. cbv zeta.
  destruct (Catalogue.keywords_for genre) as [|k ks]; [discriminate|].
  injection K as ->.
  change (firstn 3 (keyword :: ks)) with (keyword :: firstn 2 ks).
  cbn [Catalogue.keywords_loop].
  unfold Catalogue.keyword_step, Catalogue.call_get, mbind, sys_bind.
  destruct (http_get _ _ w) as [o w1]. simpl in H. subst o.
  unfold result, trace. simpl. auto.
Qed.

(** X5. When the first keyword request fails, the search gives up: it
    returns the empty list after that one request and one error line,
    and does not raise. *)
Theorem search_survives_failure :
  forall (self : Catalogue.MovieRecommender) (genre : string) (limit : Z)
         (w : World) (keyword : string),
    hd_error (Catalogue.keywords_for genre) = Some keyword ->
    (http_get (Catalogue.api_base_url self)
              (ByKeyword (Catalogue.api_key self) keyword) w).1 = Raised ->
    let r := Catalogue.search_movies_by_genre self genre limit w in
    result r = [] /\
    trace r = [Requested (Catalogue.api_base_url self)
                         (ByKeyword (Catalogue.api_key self) keyword);
               Said (MsgSearchError genre)].
Proof. exact search_first_failure. Qed.

End CatalogueSearch.

(* ------------------------------------------------------------------ *)
(** ** Start-up: credentials, model, agent *)

Section StartUp.

Context {World : Type} {sys : System World}.

Lemma truthy_nonempty (s : string) : truthy s = true <-> s <> "".
Proof. destruct s; simpl; split; congruence. Qed.

Lemma load_credentials_run (credentials_file : string) (w : World) :
  let r := Catalogue._load_credentials credentials_file w in
  files_opened (trace r) = [credentials_file] /\
  world_of r = (read_json credentials_file w).2 /\
  forall self,
    result r = Returned self <->
    exists c key,
      (read_json credentials_file w).1 = FileParsed c /\
      json_omdb_api_key c = Some key /\
      key <> "" /\
      self = {| Catalogue.api_key := key;
                Catalogue.api_base_url :=
                  default "http://www.omdbapi.com/" (json_api_base_url c) |}.
Proof.
  unfold Catalogue._load_credentials, Catalogue.call_read_json, mbind, sys_bind.
  destruct (read_json credentials_file w) as [[| |c] w1]; simpl;
    unfold result, trace, world_of; simpl.
  1, 2: repeat split; try discriminate; intros (c & key & C & _); discriminate.
  destruct (json_omdb_api_key c) as [key|] eqn:K; simpl.
  - destruct (truthy key) eqn:T; simpl; repeat split; try discriminate.
    + intros [= <-]. exists c, key. repeat split; trivial.
      apply truthy_nonempty, T.
    + intros (c' & key' & C & K' & _ & ->). injection C as <-.
      rewrite K in K'. injection K' as <-. reflexivity.
    + intros (c' & key' & C & K' & N & _). injection C as <-.
      rewrite K in K'. injection K' as <-.
      apply truthy_nonempty in N. congruence.
  - repeat split; try discriminate.
    intros (c' & key' & C & K' & _). injection C as <-. congruence.
Qed.

Lemma recommender_init_run :
  forall (credentials_file : string) (w : World),
    let r := Catalogue.__init__ credentials_file w in
    files_opened (trace r) = [credentials_file] /\
    forall self,
      result r = Returned self <->
      exists c key,
        (read_json credentials_file w).1 = FileParsed c /\
        json_omdb_api_key c = Some key /\
        key <> "" /\
        self = {| Catalogue.api_key := key;
                  Catalogue.api_base_url :=
                    default "http://www.omdbapi.com/" (json_api_base_url c) |}.
Proof.
  intros credentials_file w r. subst r.
  destruct (load_credentials_run credentials_file w) as (F & _ & R).
  cbv zeta in F, R.
  unfold Catalogue.__init__, mbind, sys_bind.
  destruct (Catalogue._load_credentials credentials_file w) as [[o t] w1].
  unfold result, trace in F, R |- *. simpl in F, R |- *.
  destruct o as [self0|]; simpl.
  - split.
    + unfold files_opened in *. rewrite omap_app. simpl. rewrite app_nil_r.
      exact F.
    + intros self. rewrite <- R. reflexivity.
  - split.
    + rewrite app_nil_r. exact F.
    + intros self. rewrite <- R. reflexivity.
Qed.

(** X6. A recommender is constructed exactly when the credentials file
    can be read and parsed and holds a non-empty [omdb_api_key]; it then
    uses that key, and the base URL of the file or, when the file has
    none, [http://www.omdbapi.com/].  In every other case construction
    raises.  The file is opened once. *)
Theorem recommender_needs_credentials :
  forall (credentials_file : string) (w : World),
    let r := Catalogue.__init__ credentials_file w in
    files_opened (trace r) = [credentials_file] /\
    forall self,
      result r = Returned self <->
      exists c key,
        (read_json credentials_file w).1 = FileParsed c /\
        json_omdb_api_key c = Some key /\
        key <> "" /\
        self = {| Catalogue.api_key := key;
                  Catalogue.api_base_url :=
                    default "http://www.omdbapi.com/" (json_api_base_url c) |}.
Proof. exact recommender_init_run. Qed.

Lemma recommender_init_world (credentials_file : string) (w : World) :
  world_of (Catalogue.__init__ credentials_file w)
  = (read_json credentials_file w).2.
Proof.
  destruct (load_credentials_run credentials_file w) as (_ & W & _).
  cbv zeta in W. unfold Catalogue.__init__, mbind, sys_bind.
  destruct (Catalogue._load_credentials credentials_file w) as [[o t] w1].
  unfold world_of in *. simpl in *. destruct o; exact W.
Qed.

Lemma detector_init_run :
  forall w : World,
    let r := Detector.__init__ w in
    let primary := pipeline "text-classification"
                            "nateraw/bert-base-uncased-emotion" w in
    let fallback := pipeline "sentiment-analysis"
                      "distilbert-base-uncased-finetuned-sst-2-english"
                      primary.2 in
    match primary.1 with
    | Returned classifier =>
        result r = Returned classifier /\
        models_loaded (trace r) = ["nateraw/bert-base-uncased-emotion"]
    | Raised =>
        result r = fallback.1 /\
        models_loaded (trace r)
        = ["nateraw/bert-base-uncased-emotion";
           "distilbert-base-uncased-finetuned-sst-2-english"]
    end /\
    files_opened (trace r) = [] /\
    prompts (trace r) = [] /\
    pipeline_runs (trace r) = [].
Proof.
  intros w. cbv zeta.
  unfold Detector.__init__, Detector.call_pipeline, mbind, sys_bind.
  destruct (pipeline "text-classification" _ w) as [[c|] w1]; simpl.
  - unfold result, trace. simpl. auto.
  - destruct (pipeline "sentiment-analysis" _ w1) as [o w2].
    unfold result, trace. simpl. auto.
Qed.

(** X7. The detector always tries the emotion model first and loads the
    sentiment model only when that fails; its construction raises only
    when both fail, and then no third model is tried. *)
Theorem detector_falls_back_once :
  forall w : World,
    let r := Detector.__init__ w in
    let primary := pipeline "text-classification"
                            "nateraw/bert-base-uncased-emotion" w in
    let fallback := pipeline "sentiment-analysis"
                      "distilbert-base-uncased-finetuned-sst-2-english"
                      primary.2 in
    match primary.1 with
    | Returned classifier =>
        result r = Returned classifier /\
        world_of r = primary.2 /\
        models_loaded (trace r) = ["nateraw/bert-base-uncased-emotion"]
    | Raised =>
        result r = fallback.1 /\
        world_of r = fallback.2 /\
        models_loaded (trace r)
        = ["nateraw/bert-base-uncased-emotion";
           "distilbert-base-uncased-finetuned-sst-2-english"]
    end.
Proof.
  intros w. cbv zeta.
  unfold Detector.__init__, Detector.call_pipeline, mbind, sys_bind.
  destruct (pipeline "text-classification" _ w) as [[c|] w1]; simpl.
  - unfold result, trace, world_of. simpl. auto.
  - destruct (pipeline "sentiment-analysis" _ w1) as [o w2].
    unfold result, trace, world_of. simpl. auto.
Qed.

Lemma agent_init_run :
  forall w : World,
    let r := Agent.__init__ w in
    let d := Detector.__init__ w in
    let c := Catalogue.__init__ "credentials.json" (world_of d) in
    (forall agent,
        result r = Returned agent <->
        exists classifier recommender,
          result d = Returned classifier /\
          result c = Returned recommender /\
          agent = {| Agent.emotion_detector := classifier;
                     Agent.movie_recommender := recommender |}) /\
    (result d = Raised -> files_opened (trace r) = []) /\
    prompts (trace r) = [] /\
    pipeline_runs (trace r) = [].
Proof.
  intros w. cbv zeta.
  destruct (detector_init_run w) as (_ & Df & Dp & Dr).
  cbv zeta in Df, Dp, Dr.
  destruct (recommender_init_run "credentials.json"
              (world_of (Detector.__init__ w))) as (Cf & _).
  cbv zeta in Cf.
  assert (Cp : prompts (trace (Catalogue.__init__ "credentials.json"
                                 (world_of (Detector.__init__ w)))) = [] /\
               pipeline_runs (trace (Catalogue.__init__ "credentials.json"
                                 (world_of (Detector.__init__ w)))) = []).
  { unfold Catalogue.__init__, Catalogue._load_credentials,
      Catalogue.call_read_json, mbind, sys_bind.
    destruct (read_json _ _) as [[| |c] w1]; simpl;
      unfold trace; simpl; auto.
    destruct (json_omdb_api_key c) as [key|]; simpl; auto.
    destruct (truthy key); simpl; auto. }
  destruct Cp as [Cp Cr].
  unfold Agent.__init__, mbind, sys_bind, say.
  destruct (Detector.__init__ w) as [[d td] w1].
  unfold result, trace, world_of in *. simpl in *.
  destruct d as [classifier|]; simpl.
  - destruct (Catalogue.__init__ "credentials.json" w1) as [[c tc] w2].
    simpl in *.
    destruct c as [recommender|]; simpl;
      unfold prompts, pipeline_runs, files_opened in *;
      rewrite ?omap_app; simpl; rewrite ?omap_app; simpl;
      rewrite ?Dp, ?Dr, ?Cp, ?Cr; simpl; repeat split; try discriminate.
    + intros [= <-]. exists classifier, recommender. auto.
    + intros (c' & r' & [= <-] & [= <-] & ->). reflexivity.
    + intros (c' & r' & _ & C & _). discriminate.
  - unfold prompts, pipeline_runs, files_opened in *.
    rewrite ?omap_app; simpl. rewrite ?Df, ?Dp, ?Dr. repeat split; trivial.
    + discriminate.
    + intros (c' & r' & C & _). discriminate.
Qed.

(** X8. The agent is constructed exactly when a model can be loaded and
    the recommender can be constructed from [credentials.json]; in
    every other case construction ends in [sys.exit(1)].  When no model
    loads, the credentials file is not opened at all. *)
Theorem agent_init_outcome :
  forall w : World,
    let r := Agent.__init__ w in
    let d := Detector.__init__ w in
    let c := Catalogue.__init__ "credentials.json" (world_of d) in
    (forall agent,
        result r = Returned agent <->
        exists classifier recommender,
          result d = Returned classifier /\
          result c = Returned recommender /\
          agent = {| Agent.emotion_detector := classifier;
                     Agent.movie_recommender := recommender |}) /\
    (result d = Raised -> files_opened (trace r) = []) /\
    prompts (trace r) = [] /\
    pipeline_runs (trace r) = [].
Proof. exact agent_init_run. Qed.

End StartUp.

(* ------------------------------------------------------------------ *)
(** ** The interactive mode and the entry point *)

Section Session.

Context {World : Type} {sys : System World}.

Lemma agent_analyze_run (self : Agent.Agent World) (text : string) (n : Z)
  (w : World) :
  let a := analyze_mood_and_recommend (ext := Agent.external self) text n w in
  Agent.analyze self text n w = (value a, [Pipeline (events a)], world_after a).
Proof.
  cbv zeta. unfold Agent.analyze, lift.
  destruct (analyze_mood_and_recommend text n w) as [[v t] w1]. reflexivity.
Qed.

Lemma pass_exit (self : Agent.Agent World) (w : World) (l : string) :
  (input PromptFeeling w).1 = InputLine l ->
  str_in (lower (strip l)) ["quit"; "exit"; "bye"; "q"] = true ->
  Agent.interactive_pass self w
  = (Agent.Break, [Asked PromptFeeling; Said MsgGoodbye],
     (input PromptFeeling w).2).
Proof.
  intros I X.
  unfold Agent.interactive_pass, Agent.interactive_try, Agent.call_input,
    mbind, sys_bind.
  destruct (input PromptFeeling w) as [o w1]. simpl in I. subst o.
  rewrite X. reflexivity.
Qed.

Lemma pass_blank (self : Agent.Agent World) (w : World) (l : string) :
  (input PromptFeeling w).1 = InputLine l ->
  blank l = true ->
  Agent.interactive_pass self w
  = (Agent.Continue, [Asked PromptFeeling; Said MsgEmptyInput],
     (input PromptFeeling w).2).
Proof.
  intros I B.
  unfold Agent.interactive_pass, Agent.interactive_try, Agent.call_input,
    mbind, sys_bind.
  destruct (input PromptFeeling w) as [o w1]. simpl in I. subst o.
  rewrite (strip_blank l B). reflexivity.
Qed.

Lemma pass_failed (self : Agent.Agent World) (w : World) :
  (input PromptFeeling w).1 = InputFailed ->
  Agent.interactive_pass self w
  = (Agent.Continue, [Asked PromptFeeling; Said MsgLoopError],
     (input PromptFeeling w).2).
Proof.
  intros I.
  unfold Agent.interactive_pass, Agent.interactive_try, Agent.call_input,
    mbind, sys_bind.
  destruct (input PromptFeeling w) as [o w1]. simpl in I. subst o.
  reflexivity.
Qed.

Lemma loop_continues (self : Agent.Agent World) (fuel : nat) (w w1 : World)
  (t : list SysEvent) :
  Agent.interactive_pass self w = (Agent.Continue, t, w1) ->
  result (Agent.interactive_loop (S fuel) self w)
  = result (Agent.interactive_loop fuel self w1) /\
  trace (Agent.interactive_loop (S fuel) self w)
  = t ++ trace (Agent.interactive_loop fuel self w1).
Proof.
  intros P. cbn [Agent.interactive_loop]. unfold mbind, sys_bind.
  rewrite P. destruct (Agent.interactive_loop fuel self w1) as [[r t2] w2].
  unfold result, trace. auto.
Qed.

(** X9. An exit word -- [quit], [exit], [bye] or [q], in any case and
    with white space around it -- ends the interactive mode at once:
    nothing is classified and nothing is searched. *)
Theorem exit_word_ends_session :
  forall (self : Agent.Agent World) (fuel : nat) (w : World) (l : string),
    (input PromptFeeling w).1 = InputLine l ->
    str_in (lower (strip l)) ["quit"; "exit"; "bye"; "q"] = true ->
    let r := Agent.interactive_mode (S fuel) self w in
    result r = Some tt /\
    trace r = [Said MsgWelcome; Asked PromptFeeling; Said MsgGoodbye] /\
    pipeline_runs (trace r) = [].
Proof.
  intros self fuel w l I X r. subst r.
  unfold Agent.interactive_mode, say, mbind, sys_bind.
  cbn [Agent.interactive_loop]. unfold mbind, sys_bind.
  rewrite (pass_exit self w l I X). unfold result, trace. simpl. auto.
Qed.

(** X10. A blank line is answered with a reminder only: no analysis is
    run for it, and the loop goes on to the next prompt. *)
Theorem blank_line_is_skipped :
  forall (self : Agent.Agent World) (fuel : nat) (w : World) (l : string),
    (input PromptFeeling w).1 = InputLine l ->
    blank l = true ->
    let r := Agent.interactive_loop (S fuel) self w in
    let next := Agent.interactive_loop fuel self (input PromptFeeling w).2 in
    result r = result next /\
    trace r = [Asked PromptFeeling; Said MsgEmptyInput] ++ trace next.
Proof.
  intros self fuel w l I B r next. subst r next.
  apply loop_continues. apply (pass_blank self w l I B).
Qed.

(** X11. When [input] fails with an exception other than Ctrl-C on
    every call -- the input is at its end -- the interactive mode does
    not end: after any number of passes the loop is still running, it
    has asked once per pass and has run no analysis. *)
Theorem closed_input_never_ends :
  forall (self : Agent.Agent World) (fuel : nat) (w : World),
    (forall (p : Prompt) (w' : World), (input p w').1 = InputFailed) ->
    let r := Agent.interactive_mode fuel self w in
    result r = None /\
    length (prompts (trace r)) = fuel /\
    pipeline_runs (trace r) = [].
Proof.
  intros self fuel w F r. subst r.
  assert (L : forall fuel w,
             let r := Agent.interactive_loop fuel self w in
             result r = None /\ length (prompts (trace r)) = fuel /\
             pipeline_runs (trace r) = []).
  { clear fuel w. induction fuel as [|fuel IH]; intros w; cbv zeta.
    - unfold result, trace. simpl. auto.
    - destruct (loop_continues self fuel w (input PromptFeeling w).2 _
                  (pass_failed self w (F PromptFeeling w))) as [R T].
      rewrite R, T. destruct (IH (input PromptFeeling w).2) as (R' & P' & Q').
      unfold prompts, pipeline_runs in *. rewrite !omap_app. simpl.
      rewrite R', P', Q'. auto. }
  unfold Agent.interactive_mode, say, mbind, sys_bind.
  destruct (L fuel w) as (R & P & Q).
  destruct (Agent.interactive_loop fuel self w) as [[o t] w1].
  unfold result, trace in *. simpl in *. auto.
Qed.

(** X12. After a line that leads to recommendations the user is asked
    once more; on [y] or [yes] (in any case, white space around it) a
    second analysis of the same line is run, with five recommendations
    instead of three; on any other answer none is run. *)
Theorem more_means_five :
  forall (self : Agent.Agent World) (w : World) (l more : string)
         (found : Analysis),
    (input PromptFeeling w).1 = InputLine l ->
    str_in (lower (strip l)) ["quit"; "exit"; "bye"; "q"] = false ->
    blank l = false ->
    let w1 := (input PromptFeeling w).2 in
    let first := analyze_mood_and_recommend (ext := Agent.external self)
                                            (strip l) 3 w1 in
    value first = Some found ->
    (input PromptNone (world_after first)).1 = InputLine more ->
    let w2 := (input PromptNone (world_after first)).2 in
    let second := analyze_mood_and_recommend (ext := Agent.external self)
                                             (strip l) 5 w2 in
    let r := Agent.interactive_pass self w in
    result r = Agent.Continue /\
    prompts (trace r) = [PromptFeeling; PromptNone] /\
    pipeline_runs (trace r)
    = events first ::
      (if str_in (lower (strip more)) ["y"; "yes"] then [events second] else []).
Proof.
  intros self w l more found I X B w1 first V M w2 second r.
  subst r w2 second. revert M V. subst first w1.
  unfold Agent.interactive_pass, Agent.interactive_try, Agent.call_input,
    mbind, sys_bind, say.
  destruct (input PromptFeeling w) as [o w1]. simpl in I. subst o.
  simpl fst. simpl snd. rewrite X, (strip_not_blank l B).
  change (negb true) with false. cbv beta iota.
  rewrite (agent_analyze_run self (strip l) 3 w1). cbv zeta.
  intros M V. rewrite V.
  destruct (input PromptNone (world_after (analyze_mood_and_recommend
                                             (strip l) 3 w1))) as [o w2].
  simpl in M. subst o. simpl snd.
  destruct (str_in (lower (strip more)) ["y"; "yes"]).
  - rewrite (agent_analyze_run self (strip l) 5 w2). cbv zeta.
    unfold result, trace. simpl. auto.
  - unfold result, trace. simpl. auto.
Qed.

(** X13. When the agent cannot be constructed, [main] ends with exit
    status 1 without asking for input and without running an
    analysis. *)
Theorem main_exits_on_failed_start :
  forall (fuel : nat) (argv : list string) (w : World),
    result (Agent.__init__ w) = Raised ->
    let r := Agent.main fuel argv w in
    result r = Some 1 /\
    prompts (trace r) = [] /\
    pipeline_runs (trace r) = [].
Proof.
  intros fuel argv w F r. subst r.
  destruct (agent_init_run w) as (_ & _ & P & Q). cbv zeta in P, Q.
  unfold Agent.main, say, mbind, sys_bind.
  destruct (Agent.__init__ w) as [[o t] w1].
  unfold result, trace in *. simpl in *. subst o. simpl.
  unfold prompts, pipeline_runs in *. rewrite !omap_app, ?P, ?Q. auto.
Qed.

(** X14. With arguments on the command line, [main] runs exactly one
    analysis, of the arguments joined by single spaces and with three
    recommendations, asks for no input, and ends with exit status 0
    whether or not any movie was found. *)
Theorem main_with_arguments :
  forall (fuel : nat) (argv : list string) (w : World) (agent : Agent.Agent World),
    result (Agent.__init__ w) = Returned agent ->
    (1 < length argv)%nat ->
    let w1 := world_of (Agent.__init__ w) in
    let run := analyze_mood_and_recommend (ext := Agent.external agent)
                                          (Agent.join (tl argv)) 3 w1 in
    let r := Agent.main fuel argv w in
    result r = Some 0 /\
    pipeline_runs (trace r) = [events run] /\
    prompts (trace r) = [].
Proof.
  intros fuel argv w agent F A w1 run r. subst r run w1.
  destruct (agent_init_run w) as (_ & _ & P & Q). cbv zeta in P, Q.
  unfold Agent.main, say, mbind, sys_bind.
  destruct (Agent.__init__ w) as [[o t] w1].
  unfold result, trace, world_of in *. simpl in *. subst o.
  apply Nat.ltb_lt in A. rewrite A.
  rewrite (agent_analyze_run agent (Agent.join (tl argv)) 3 w1). cbv zeta.
  destruct (value (analyze_mood_and_recommend (Agent.join (tl argv)) 3 w1));
    simpl; unfold prompts, pipeline_runs in *;
    rewrite !omap_app, ?P, ?Q; simpl; auto.
Qed.

End Session.

(* ------------------------------------------------------------------ *)
(** ** More on tiers, normalisation and detection *)

Section MoreOnDetection.

Lemma ge_trans (x y z : float) :
  ge x y = true -> ge y z = true -> ge x z = true.
Proof.
  intros H1 H2. apply ge_key in H1 as (Nx & Ny & H1).
  apply ge_key in H2 as (_ & Nz & H2).
  apply ge_key. repeat split; trivial.
  revert H1 H2.
  destruct (key x) as [[x1 x2] x3], (key y) as [[y1 y2] y3],
    (key z) as [[z1 z2] z3]; simpl. lia.
Qed.

(** X15. The tier never goes down when the score goes up: for scores
    [a <= b] the tier of [b] is the tier of [a] or a higher one. *)
Theorem tier_is_monotone :
  forall a b : float,
    ge b a = true ->
    tier_rank (get_emotion_confidence_level a)
    <= tier_rank (get_emotion_confidence_level b).
Proof.
  intros a b H. unfold get_emotion_confidence_level.
  destruct (ge a 0.8) eqn:A8.
  { rewrite (ge_trans b a 0.8 H A8). reflexivity. }
  destruct (ge a 0.6) eqn:A6.
  { rewrite (ge_trans b a 0.6 H A6). destruct (ge b 0.8); vm_compute; discriminate. }
  destruct (ge a 0.4) eqn:A4.
  { rewrite (ge_trans b a 0.4 H A4).
    destruct (ge b 0.8); [vm_compute; discriminate|].
    destruct (ge b 0.6); vm_compute; discriminate. }
  destruct (ge b 0.8); [vm_compute; discriminate|].
  destruct (ge b 0.6); [vm_compute; discriminate|].
  destruct (ge b 0.4); vm_compute; discriminate.
Qed.

Lemma tier_is_monotone_witness :
  ge (decimal 92 100) (decimal 59 100) = true /\
  tier_rank (get_emotion_confidence_level (decimal 59 100))
  <= tier_rank (get_emotion_confidence_level (decimal 92 100)).
Proof.
  split; [vm_compute; reflexivity|].
  apply (tier_is_monotone (decimal 59 100) (decimal 92 100)).
  vm_compute. reflexivity.
Defined.

(** X16. The tier tells the interval of the score: [high] exactly from
    0.8 on, [medium] exactly on [0.6, 0.8), [low] exactly on
    [0.4, 0.6), and [very_low] exactly below 0.4 or when the score is
    not a number. *)
Theorem tier_determines_interval :
  forall s : float,
    (get_emotion_confidence_level s = "high" <-> ge s 0.8 = true) /\
    (get_emotion_confidence_level s = "medium" <->
     ge s 0.6 = true /\ lt s 0.8 = true) /\
    (get_emotion_confidence_level s = "low" <->
     ge s 0.4 = true /\ lt s 0.6 = true) /\
    (get_emotion_confidence_level s = "very_low" <->
     lt s 0.4 = true \/ is_nan s = true).
Proof.
  intros s.
  assert (N8 : is_nan 0.8 = false) by reflexivity.
  assert (N6 : is_nan 0.6 = false) by reflexivity.
  assert (N4 : is_nan 0.4 = false) by reflexivity.
  assert (NaN : is_nan s = true -> ge s 0.8 = false /\ ge s 0.6 = false /\
                                   ge s 0.4 = false).
  { destruct s; simpl; try discriminate. auto. }
  repeat split.
  - unfold get_emotion_confidence_level.
    destruct (ge s 0.8); [reflexivity|].
    destruct (ge s 0.6); [discriminate|]. destruct (ge s 0.4); discriminate.
  - apply tier_high.
  - unfold get_emotion_confidence_level in H.
    destruct (ge s 0.8); [discriminate|].
    destruct (ge s 0.6); [reflexivity|]. destruct (ge s 0.4); discriminate.
  - unfold get_emotion_confidence_level in H.
    destruct (ge s 0.8) eqn:G8; [discriminate|].
    destruct (ge s 0.6) eqn:G6; [|destruct (ge s 0.4); discriminate].
    apply not_ge_lt; trivial. apply (ge_is_nan _ _ G6).
  - intros [H6 H8]. apply tier_medium; trivial.
  - unfold get_emotion_confidence_level in H.
    destruct (ge s 0.8); [discriminate|]. destruct (ge s 0.6); [discriminate|].
    destruct (ge s 0.4); [reflexivity | discriminate].
  - unfold get_emotion_confidence_level in H.
    destruct (ge s 0.8); [discriminate|].
    destruct (ge s 0.6) eqn:G6; [discriminate|].
    destruct (ge s 0.4) eqn:G4; [|discriminate].
    apply not_ge_lt; trivial. apply (ge_is_nan _ _ G4).
  - intros [H4 H6]. apply tier_low; trivial.
  - intros H. destruct (is_nan s) eqn:N; [auto|]. left.
    apply very_low_below; trivial.
  - intros [H|H]; [apply tier_very_low, H|].
    destruct (NaN H) as (G8 & G6 & G4).
    unfold get_emotion_confidence_level. rewrite G8, G6, G4. reflexivity.
Qed.

Lemma normalize_canonical :
  forall l : string,
    In (_normalize_emotion l) canonical_emotions /\
    emotion_genre_mapping !! _normalize_emotion l
    = Some (get_genres_for_emotion (_normalize_emotion l)).
Proof.
  intros l. unfold _normalize_emotion, dict_get.
  destruct (emotion_mapping !! l) as [e|] eqn:E.
  - apply elem_of_list_to_map_2, list_elem_of_In in E. simpl in E.
    repeat (destruct E as [E|E];
            [injection E as <- <-; split; [simpl; tauto | vm_compute; reflexivity]|]).
    destruct E.
  - split; [simpl; tauto | vm_compute; reflexivity].
Qed.

(** X17. Whatever the label, the normalised emotion is one of the seven
    canonical emotions, and the genre table has an entry for it: on
    normalised emotions the genre lookup never needs its default. *)
Theorem normalized_emotion_is_canonical :
  forall l : string,
    In (_normalize_emotion l) canonical_emotions /\
    emotion_genre_mapping !! _normalize_emotion l
    = Some (get_genres_for_emotion (_normalize_emotion l)).
Proof. exact normalize_canonical. Qed.

Context {World : Type} {ext : External World}.

Lemma detect_contained :
  forall (text : string) (w : World),
    let r := detect_emotion text w in
    In (normalized_emotion (value r)) canonical_emotions /\
    classifier_calls (events r) = (if blank text then [] else [strip text]) /\
    (raw_prediction (value r) = None -> value r = neutral_result).
Proof.
  intros text w. cbv zeta.
  destruct (blank text) eqn:B.
  - rewrite (detect_blank text w B). unfold value, events. simpl.
    repeat split. tauto.
  - destruct (classifier (strip text) w) as [[v|] w'] eqn:C.
    + destruct (top_of v) as [p|] eqn:T.
      * rewrite (detect_returned text w w' v p B C T).
        unfold value, events. simpl. repeat split.
        -- apply normalize_canonical.
        -- discriminate.
      * rewrite (detect_no_top text w w' v B C T).
        unfold value, events. simpl. repeat split. tauto.
    + rewrite (detect_raised text w B); [|rewrite C; reflexivity].
      unfold value, events. simpl. repeat split. tauto.
Qed.

(** X18. For every text and every behaviour of the classifier, the
    detector returns a canonical emotion; it calls the classifier at
    most once, on the stripped text, and not at all for blank text; and
    a result without raw prediction is the neutral result. *)
Theorem detection_is_contained :
  forall (text : string) (w : World),
    let r := detect_emotion text w in
    In (normalized_emotion (value r)) canonical_emotions /\
    classifier_calls (events r) = (if blank text then [] else [strip text]) /\
    (raw_prediction (value r) = None -> value r = neutral_result).
Proof. exact detect_contained. Qed.

(** X19. Of a list of predictions only the first one counts, and an
    empty list is absorbed like a failure of the classifier: the result
    is the neutral one and the error line is printed. *)
Theorem prediction_list_handling :
  forall (text : string) (w w' : World) (ps : list Prediction),
    blank text = false ->
    classifier (strip text) w = (Returned (PredictionList ps), w') ->
    let r := detect_emotion text w in
    match ps with
    | [] =>
        value r = neutral_result /\
        events r = [Classified (strip text); Printed MsgDetectionError]
    | p :: _ =>
        value r = {| emotion := lower (label p);
                     confidence := score p;
                     raw_prediction := Some p;
                     normalized_emotion := _normalize_emotion (lower (label p)) |} /\
        events r = [Classified (strip text)]
    end.
Proof.
  intros text w w' ps B C. cbv zeta. destruct ps as [|p rest].
  - rewrite (detect_no_top text w w' _ B C eq_refl). auto.
  - rewrite (detect_returned text w w' _ p B C eq_refl). auto.
Qed.

End MoreOnDetection.

(* ------------------------------------------------------------------ *)
(** ** More on the recommender *)

Section MoreOnRecommender.

Context {World : Type} {ext : External World}.

Lemma quota_bounds :
  forall (emotion : string) (count : Z),
    let genres := get_genres_for_emotion emotion in
    let quota := movies_per_genre count genres in
    2 <= quota /\
    count < Z.of_nat (length genres) * quota.
Proof.
  intros emotion count genres quota. subst quota. unfold movies_per_genre.
  assert (G : 0 < Z.of_nat (length genres)).
  { subst genres. destruct (genres_length emotion) as [-> | ->]; lia. }
  pose proof (Z.mul_succ_div_gt count (Z.of_nat (length genres)) G).
  split; [lia|]. nia.
Qed.


(** The values kept by the removal of duplicates are a subsequence of
    the list. *)
Lemma remove_duplicates_sublist l : forall acc,
  exists kept : list Movie,
    dict_values (remove_duplicates l acc) = dict_values acc ++ kept /\
    kept `sublist_of` l.
Proof.
  induction l as [|movie rest IH]; intros acc; simpl.
  - exists []. rewrite app_nil_r. split; [reflexivity | constructor].
  - destruct (has_key (imdb_id movie) acc); simpl.
    + destruct (IH acc) as (kept & E & S). exists kept. split; trivial.
      apply sublist_cons, S.
    + destruct (IH (acc ++ [(imdb_id movie, movie)])) as (kept & E & S).
      exists (movie :: kept). split.
      * rewrite E. unfold dict_values. rewrite map_app, <- app_assoc.
        reflexivity.
      * apply sublist_skip, S.
Qed.

(** X21. Removing duplicates loses no identifier and keeps the order:
    the pool is a subsequence of the gathered records, and an
    identifier occurs in the pool exactly when it occurs among the
    gathered records. *)
Theorem pool_covers_gathered :
  forall (emotion : string) (count : Z) (w : World),
    let all_movies := gathered emotion count w in
    let pool := unique_pool emotion count w in
    pool `sublist_of` all_movies /\
    forall id : string,
      In id (map imdb_id pool) <-> In id (map imdb_id all_movies).
Proof.
  intros emotion count w all_movies pool. subst pool. unfold unique_pool.
  fold all_movies. split.
  - destruct (remove_duplicates_sublist all_movies []) as (kept & E & S).
    rewrite E. exact S.
  - intros id. split.
    + intros H. apply in_map_iff in H as (m & <- & H).
      apply dedup_first_wins in H. apply find_some in H as [H _].
      apply in_map. exact H.
    + intros H. apply in_map_iff in H as (m & <- & H).
      rewrite dedup_ids. apply remove_duplicates_complete, H.
Qed.

Lemma slice_to_negative {A : Type} (l : list A) (n : Z) :
  n < 0 ->
  Z.of_nat (length (slice_to l n)) = Z.max 0 (Z.of_nat (length l) + n).
Proof.
  intros H. unfold slice_to. destruct (0 <=? n) eqn:E.
  - apply Z.leb_le in E. lia.
  - rewrite length_firstn. lia.
Qed.

Lemma slice_to_negative_prefix {A : Type} (l : list A) (n : Z) :
  n < 0 -> slice_to l n = firstn (length l - Z.to_nat (- n)) l.
Proof.
  intros H. unfold slice_to. destruct (0 <=? n) eqn:E.
  - apply Z.leb_le in E. lia.
  - f_equal. lia.
Qed.

(** X22. A negative count is not rejected either: every search is asked
    for two records, and the call returns the shuffled pool without its
    last [-count] records. *)
Theorem negative_count_drops_from_the_end :
  forall (emotion : string) (count : Z) (w : World),
    (forall (l : list Movie) (w' : World), Permutation (shuffle l w').1 l) ->
    count < 0 ->
    let out := value (recommend_movies emotion count w) in
    let pool := unique_pool emotion count w in
    let genres := get_genres_for_emotion emotion in
    let searched := search_each genres (movies_per_genre count genres) [] w in
    let shuffled := (shuffle pool (world_after searched)).1 in
    search_requests (events (recommend_movies emotion count w))
    = map (fun g => (g, 2)) (get_genres_for_emotion emotion) /\
    Permutation shuffled pool /\
    out = firstn (length shuffled - Z.to_nat (- count)) shuffled /\
    Z.of_nat (length out) = Z.max 0 (Z.of_nat (length pool) + count).
Proof.
  intros emotion count w P H out pool genres searched shuffled.
  assert (O : out = slice_to shuffled count).
  { subst out shuffled searched pool genres.
    pose proof (recommend_run emotion count w) as R. simpl in R. rewrite R.
    reflexivity. }
  split; [|split; [|split]].
  - rewrite recommend_requests. unfold movies_per_genre.
    assert (G : 0 < Z.of_nat (length (get_genres_for_emotion emotion))).
    { destruct (genres_length emotion) as [-> | ->]; lia. }
    assert (D : count / Z.of_nat (length (get_genres_for_emotion emotion)) < 0).
    { apply Z.div_lt_upper_bound; lia. }
    replace (Z.max 1 (count / Z.of_nat (length (get_genres_for_emotion emotion))) + 1)
      with 2 by lia.
    reflexivity.
  - apply P.
  - rewrite O. apply slice_to_negative_prefix, H.
  - rewrite O, (slice_to_negative _ count H).
    subst shuffled. rewrite (Permutation_length (P _ _)). reflexivity.
Qed.

Lemma events_requests_app (t1 t2 : list Event) :
  search_requests (t1 ++ t2) = search_requests t1 ++ search_requests t2 /\
  classifier_calls (t1 ++ t2) = classifier_calls t1 ++ classifier_calls t2.
Proof. split; apply omap_app. Qed.

Lemma detect_no_search (text : string) (w : World) :
  search_requests (events (detect_emotion text w)) = [].
Proof.
  destruct (blank text) eqn:B.
  - rewrite (detect_blank text w B). reflexivity.
  - destruct (classifier (strip text) w) as [[v|] w'] eqn:C.
    + destruct (top_of v) as [p|] eqn:T.
      * rewrite (detect_returned text w w' v p B C T). reflexivity.
      * rewrite (detect_no_top text w w' v B C T). reflexivity.
    + rewrite (detect_raised text w B); [reflexivity|].
      rewrite C. reflexivity.
Qed.

Lemma searches_no_classifier (gs : list string) (limit : Z) :
  classifier_calls (map (fun g => Searched g limit) gs) = [].
Proof. induction gs as [|g rest IH]; simpl; trivial. Qed.

Lemma recommend_no_classifier (emotion : string) (n : Z) (w : World) :
  classifier_calls (events (recommend_movies emotion n w)) = [].
Proof.
  pose proof (recommend_run emotion n w) as R. simpl in R. rewrite R.
  unfold events. simpl.
  change (classifier_calls
            (map (fun g => Searched g (movies_per_genre n (get_genres_for_emotion emotion)))
                 (get_genres_for_emotion emotion)
             ++ [Shuffled (unique_pool emotion n w);
                 Printed (MsgFound (length (slice_to
                   (shuffle (unique_pool emotion n w)
                      (world_after (search_each (get_genres_for_emotion emotion)
                         (movies_per_genre n (get_genres_for_emotion emotion)) [] w))).1 n)))])
          = []).
  rewrite (proj2 (events_requests_app _ _)), searches_no_classifier.
  reflexivity.
Qed.

(** What a whole run asks of the classifier and of the catalogue. *)
Lemma analyze_requests (text : string) (n : Z) (w : World) :
  let found := detect_emotion text w in
  let run := analyze_mood_and_recommend text n w in
  classifier_calls (events run) = classifier_calls (events found) /\
  search_requests (events run)
  = search_requests
      (events (recommend_movies (normalized_emotion (value found)) n
                                (world_after found))).
Proof.
  cbv zeta. destruct (analyze_run text n w) as (E & _). cbv zeta in E.
  rewrite E. clear E.
  set (found := detect_emotion text w).
  set (picked := recommend_movies _ n _).
  assert (Q : forall (x : Event) (t : list Event),
             x :: t = [x] ++ t) by reflexivity.
  rewrite (Q (Printed (MsgAnalyzing text))).
  rewrite (Q (Printed (MsgDetected _ _ _))).
  rewrite (Q (Printed (MsgFindingForMood _))).
  repeat (rewrite (proj1 (events_requests_app _ _))).
  repeat (rewrite (proj2 (events_requests_app _ _))).
  subst found picked.
  rewrite detect_no_search, recommend_no_classifier.
  destruct (lt (confidence (value (detect_emotion text w))) 0.4);
    destruct (value (recommend_movies _ _ _)); simpl;
    rewrite ?app_nil_r; auto.
Qed.

(** X23. Whenever detection gives no raw prediction -- blank text, a
    classifier that raises, an empty list of predictions -- the run
    still recommends: it flags the advisory and searches the four
    genres of [neutral]. *)
Theorem degraded_detection_recommends_neutral :
  forall (text : string) (count : Z) (w : World),
    raw_prediction (value (detect_emotion text w)) = None ->
    let run := analyze_mood_and_recommend text count w in
    advisory_flagged (events run) = true /\
    map fst (search_requests (events run))
    = ["Action"; "Adventure"; "Comedy"; "Drama"].
Proof.
  intros text count w H run. subst run.
  destruct (detect_contained text w) as (_ & _ & N). cbv zeta in N.
  specialize (N H). split.
  - rewrite analyze_flagged, N. vm_compute. reflexivity.
  - destruct (analyze_requests text count w) as (_ & S). cbv zeta in S.
    rewrite S, N, recommend_requests, map_map. simpl.
    vm_compute. reflexivity.
Qed.

Lemma analyze_outcome :
  forall (text : string) (count : Z) (w : World),
    let found := detect_emotion text w in
    let picked := recommend_movies (normalized_emotion (value found)) count
                                   (world_after found) in
    let run := analyze_mood_and_recommend text count w in
    (value run = None <-> value picked = []) /\
    forall a : Analysis,
      value run = Some a ->
      recommendations a = value picked /\
      recommendations a <> [] /\
      emotion_analysis a = value found /\
      In (detected_emotion a) canonical_emotions /\
      confidence_level a = get_emotion_confidence_level (analysis_confidence a) /\
      genres a = get_genres_for_emotion (detected_emotion a).
Proof.
  intros text count w. cbv zeta.
  destruct (detect_contained text w) as (C & _). cbv zeta in C.
  unfold analyze_mood_and_recommend, mbind, prog_bind, print, mret, prog_ret.
  destruct (detect_emotion text w) as [[r t] w1].
  unfold value, world_after in *. simpl in *.
  destruct (lt (confidence r) 0.4);
    destruct (recommend_movies (normalized_emotion r) count w1)
      as [[ms t2] w2];
    destruct ms as [|m ms]; simpl; split;
    try (split; congruence);
    try (intros a [=]; fail);
    intros a [= <-]; simpl; repeat split; trivial; discriminate.
Qed.

(** X24. A run returns [None] exactly when the recommender returns no
    record; otherwise the returned dictionary is consistent: its
    recommendations are the recommender's, its emotion is canonical,
    its confidence level is the tier of its confidence, and its genres
    are those of its emotion. *)
Theorem analysis_is_consistent :
  forall (text : string) (count : Z) (w : World),
    let found := detect_emotion text w in
    let picked := recommend_movies (normalized_emotion (value found)) count
                                   (world_after found) in
    let run := analyze_mood_and_recommend text count w in
    (value run = None <-> value picked = []) /\
    forall a : Analysis,
      value run = Some a ->
      recommendations a = value picked /\
      recommendations a <> [] /\
      emotion_analysis a = value found /\
      In (detected_emotion a) canonical_emotions /\
      confidence_level a = get_emotion_confidence_level (analysis_confidence a) /\
      genres a = get_genres_for_emotion (detected_emotion a).
Proof. exact analyze_outcome. Qed.

End MoreOnRecommender.

(* ------------------------------------------------------------------ *)
(** ** The agent's pipeline on the real catalogue search *)

Section AgentPipeline.

Context {World : Type} {sys : System World}.

Lemma concat_length_bound {A : Type} (R : string -> list A -> Prop)
  (bound : Z) (gs : list string) (answers : list (list A)) :
  0 <= bound ->
  (forall g ms, R g ms -> Z.of_nat (length ms) <= bound) ->
  Forall2 R gs answers ->
  Z.of_nat (length (concat answers)) <= Z.of_nat (length gs) * bound.
Proof.
  intros B H F. induction F as [|g ms gs answers HR F IH]; simpl; [lia|].
  rewrite length_app. specialize (H g ms HR). lia.
Qed.

Lemma concat_In {A : Type} (R : string -> list A -> Prop)
  (gs : list string) (answers : list (list A)) (x : A) :
  Forall2 R gs answers -> In x (concat answers) ->
  exists g ms, R g ms /\ In x ms.
Proof.
  intros F. induction F as [|g ms gs answers HR F IH]; simpl; [tauto|].
  rewrite in_app_iff. intros [H|H]; eauto.
Qed.

(** The gathered records of an agent are answers of its catalogue
    search. *)
Lemma agent_gathered (self : Agent.Agent World) (emotion : string)
  (count : Z) (w : World) :
  let genres := get_genres_for_emotion emotion in
  let limit := movies_per_genre count genres in
  exists answers : list (list Movie),
    gathered (ext := Agent.external self) emotion count w = concat answers /\
    Forall2 (fun g ms =>
               exists w', ms = result (Catalogue.search_movies_by_genre
                                         (Agent.movie_recommender self)
                                         g limit w'))
            genres answers.
Proof.
  cbv zeta. unfold gathered.
  destruct (search_each_value (ext := Agent.external self)
              (get_genres_for_emotion emotion)
              (movies_per_genre count (get_genres_for_emotion emotion)) [] w)
    as (answers & V & F).
  exists answers. split; [exact V|]. exact F.
Qed.

(** X25. For one recommendation an agent gathers at most as many
    records as it has asked its searches for: the number of genres
    times the quota. *)
Theorem agent_gathers_within_quota :
  forall (self : Agent.Agent World) (emotion : string) (count : Z) (w : World),
    let genres := get_genres_for_emotion emotion in
    Z.of_nat (length (gathered (ext := Agent.external self) emotion count w))
    <= Z.of_nat (length genres) * movies_per_genre count genres.
Proof.
  intros self emotion count w genres. subst genres.
  destruct (agent_gathered self emotion count w) as (answers & -> & F).
  destruct (quota_bounds emotion count) as [Q _].
  cbv zeta in Q.
  eapply concat_length_bound; [| |exact F]; [lia|].
  intros g ms (w' & ->). cbv beta.
  pose proof (search_length_bound (Agent.movie_recommender self) g
                (movies_per_genre count (get_genres_for_emotion emotion)) w').
  lia.
Qed.

(** X26. Every record an agent recommends carries the IMDb link of its
    own identifier, and no two recommended records share an
    identifier. *)
Theorem agent_recommends_wellformed_records :
  forall (self : Agent.Agent World) (emotion : string) (count : Z) (w : World),
    (forall (l : list Movie) (w' : World),
        Permutation (random_shuffle l w').1 l) ->
    let out := value (recommend_movies (ext := Agent.external self)
                                       emotion count w) in
    List.NoDup (map imdb_id out) /\
    forall m : Movie,
      In m out ->
      link m = ("https://www.imdb.com/title/" ++ imdb_id m ++ "/")%string.
Proof.
  intros self emotion count w P out. subst out. split.
  - apply NoDup_ListNoDup.
    apply (recommend_NoDup (ext := Agent.external self) P).
  - intros m H.
    apply (recommend_from_pool (ext := Agent.external self) P) in H.
    apply dedup_first_wins in H. apply find_some in H as [H _].
    destruct (agent_gathered self emotion count w) as (answers & E & F).
    rewrite E in H.
    destruct (concat_In _ _ _ m F H) as (g & ms & (w' & ->) & Hin).
    apply (search_provenance
             (Agent.movie_recommender self) g _ w' m Hin).
Qed.

(** X27. When the catalogue service cannot be reached at all, an
    analysis still ends normally: every search returns nothing, the
    recommender returns the empty list, and the run returns [None]
    after the line that says no movie was found. *)
Theorem unreachable_service_gives_no_movies :
  forall (self : Agent.Agent World) (text : string) (count : Z) (w : World),
    (forall (l : list Movie) (w' : World),
        Permutation (random_shuffle l w').1 l) ->
    (forall (url : string) (q : Query) (w' : World),
        (http_get url q w').1 = Raised) ->
    let run := analyze_mood_and_recommend (ext := Agent.external self)
                                          text count w in
    result (Agent.analyze self text count w) = None /\
    value run = None /\
    last (events run) = Some (Printed MsgNoMovies).
Proof.
  intros self text count w P D run. subst run.
  assert (Empty : forall emotion w0,
             value (recommend_movies (ext := Agent.external self)
                                     emotion count w0) = []).
  { intros emotion w0.
    destruct (value (recommend_movies emotion count w0)) as [|m ms] eqn:V;
      [reflexivity|exfalso].
    assert (H : In m (value (recommend_movies (ext := Agent.external self)
                                              emotion count w0)))
      by (rewrite V; left; reflexivity).
    apply (recommend_from_pool (ext := Agent.external self) P) in H.
    apply dedup_first_wins in H. apply find_some in H as [H _].
    destruct (agent_gathered self emotion count w0) as (answers & E & F).
    rewrite E in H.
    destruct (concat_In _ _ _ m F H) as (g & ms' & (w' & ->) & Hin).
    pose proof (keywords_for_nonempty g) as K.
    destruct (Catalogue.keywords_for g) as [|k ks] eqn:KE; [congruence|].
    destruct (search_first_failure
                (Agent.movie_recommender self) g
                (movies_per_genre count (get_genres_for_emotion emotion))
                w' k) as [R _].
    - rewrite KE. reflexivity.
    - apply D.
    - cbv zeta in R. rewrite R in Hin. destruct Hin. }
  destruct (analyze_outcome (ext := Agent.external self) text count w)
    as (N & _).
  cbv zeta in N.
  assert (V : value (analyze_mood_and_recommend (ext := Agent.external self)
                                                text count w) = None)
    by (apply N, Empty).
  rewrite agent_analyze_run. cbv zeta. unfold result. simpl.
  repeat split; trivial.
  destruct (analyze_run (ext := Agent.external self) text count w) as (E & _).
  cbv zeta in E. rewrite E, Empty. simpl.
  repeat (rewrite ?last_app, ?last_cons; simpl).
  reflexivity.
Qed.

End AgentPipeline.

(* ------------------------------------------------------------------ *)
(** ** Keywords of the mapped genres, and the module function *)

(** X28. Every genre the emotion table can produce has its own keyword
    list, except [Adventure]: that genre is searched under the single
    keyword [adventure], its lower-cased name. *)
Theorem adventure_has_no_keywords :
  forall emotion genre : string,
    In genre (get_genres_for_emotion emotion) ->
    (Catalogue.genre_keywords !! genre = None <-> genre = "Adventure") /\
    (genre = "Adventure" -> Catalogue.keywords_for genre = ["adventure"]).
Proof.
  assert (G : forall genre,
             In genre ["Comedy"; "Romance"; "Family"; "Animation"; "Musical";
                       "Drama"; "Biography"; "Adventure"; "Action";
                       "Thriller"; "Fantasy"; "Mystery"; "Sci-Fi"] ->
             (Catalogue.genre_keywords !! genre = None <-> genre = "Adventure") /\
             (genre = "Adventure" -> Catalogue.keywords_for genre = ["adventure"])).
  { intros genre H. simpl in H.
    repeat (destruct H as [<-|H];
            [vm_compute; split; [split|]; congruence|]).
    destruct H. }
  intros emotion genre H. apply G.
  destruct (in_dec string_dec emotion canonical_emotions) as [C|C].
  - unfold canonical_emotions in C.
    repeat (destruct C as [<-|C];
            [vm_compute in H; simpl; tauto|]).
    destruct C.
  - rewrite (genres_unlisted emotion C) in H. simpl in *. tauto.
Qed.

Lemma adventure_has_no_keywords_witness :
  In "Adventure" (get_genres_for_emotion "fear") /\
  (Catalogue.genre_keywords !! "Adventure" = None <-> "Adventure" = "Adventure") /\
  ("Adventure" = "Adventure" ->
   Catalogue.keywords_for "Adventure" = ["adventure"]).
Proof.
  assert (H : In "Adventure" (get_genres_for_emotion "fear"))
    by (vm_compute; tauto).
  split; [exact H|].
  exact (adventure_has_no_keywords "fear" "Adventure" H).
Defined.

Section ModuleFunction.

Context {World : Type} {sys : System World}.

(** X29. The module function [detect_emotion] loads a model on every
    call, before it looks at the text; it raises exactly when no model
    can be loaded; what it returns is a canonical emotion, and for
    blank text it is [neutral], without any call of the classifier. *)
Theorem module_detect_emotion_loads_first :
  forall (text : string) (w : World),
    let r := Detector.detect_emotion text w in
    hd_error (models_loaded (trace r))
    = Some "nateraw/bert-base-uncased-emotion" /\
    (result r = Raised <-> result (Detector.__init__ w) = Raised) /\
    (forall e, result r = Returned e -> In e canonical_emotions) /\
    (blank text = true ->
     forall e, result r = Returned e ->
               e = "neutral" /\ pipeline_runs (trace r) = [[]]).
Proof.
  intros text w. cbv zeta.
  destruct (detector_init_run w) as (M & _ & _ & Q). cbv zeta in M, Q.
  unfold Detector.detect_emotion, mbind, sys_bind, lift.
  destruct (Detector.__init__ w) as [[o t] w1].
  unfold result, trace in *. simpl in *.
  assert (H : hd_error (models_loaded t)
              = Some "nateraw/bert-base-uncased-emotion").
  { destruct (pipeline "text-classification" _ w).1;
      [destruct M as [_ ->] | destruct M as [_ ->]]; reflexivity. }
  destruct o as [classifier|]; simpl.
  - pose proof (detect_contained (ext := Detector.external classifier)
                  text w1) as (C & _).
    cbv zeta in C.
    pose proof (detect_blank (ext := Detector.external classifier) text w1) as B.
    destruct (detect_emotion text w1) as [[r tr] w2].
    unfold value in C. simpl in *.
    unfold models_loaded, pipeline_runs in *. rewrite !omap_app. simpl.
    rewrite app_nil_r. repeat split; try discriminate; trivial.
    + intros e [= <-]. exact C.
    + injection H1 as <-. specialize (B H0). injection B as -> _ _.
      reflexivity.
    + specialize (B H0). injection B as _ -> _. rewrite Q. reflexivity.
  - rewrite app_nil_r. repeat split; trivial; discriminate.
Qed.

(** X30. The module functions [get_emotion_genres] and
    [recommend_movies] construct a recommender first: each raises
    exactly when the credentials cannot be loaded, although the genre
    lookup uses no credentials.  [get_emotion_genres] does nothing
    besides the construction: it sends no request and runs no
    recommendation.  [recommend_movies] runs, after a successful
    construction, exactly one recommendation, that of the method. *)
Theorem module_functions_need_credentials :
  forall (emotion : string) (count : Z) (w : World),
    let start := Catalogue.__init__ "credentials.json" w in
    let g := Catalogue.get_emotion_genres emotion w in
    let r := Catalogue.recommend_movies emotion count w in
    (result g = Raised <-> result start = Raised) /\
    (forall gs, result g = Returned gs -> gs = get_genres_for_emotion emotion) /\
    trace g = trace start /\
    world_of g = world_of start /\
    files_opened (trace g) = ["credentials.json"] /\
    keyword_requests (trace g) = [] /\
    detail_requests (trace g) = [] /\
    pipeline_runs (trace g) = [] /\
    (result r = Raised <-> result start = Raised) /\
    (result r = Raised -> pipeline_runs (trace r) = []) /\
    (forall self,
        result start = Returned self ->
        let run := recommend_movies (ext := Catalogue.external self)
                                    emotion count (world_of start) in
        result r = Returned (value run) /\
        trace r = trace start ++ [Pipeline (events run)] /\
        pipeline_runs (trace r) = [events run]).
Proof.
  intros emotion count w. cbv zeta.
  destruct (recommender_init_run "credentials.json" w) as (F & _).
  cbv zeta in F.
  assert (K : keyword_requests (trace (Catalogue.__init__ "credentials.json" w)) = []
              /\ detail_requests (trace (Catalogue.__init__ "credentials.json" w)) = []
              /\ pipeline_runs (trace (Catalogue.__init__ "credentials.json" w)) = []).
  { unfold Catalogue.__init__, Catalogue._load_credentials,
      Catalogue.call_read_json, mbind, sys_bind.
    destruct (read_json _ _) as [[| |c] w1]; simpl;
      unfold trace; simpl; auto.
    destruct (json_omdb_api_key c) as [key|]; simpl; auto.
    destruct (truthy key); simpl; auto. }
  destruct K as (K & D & P).
  unfold Catalogue.get_emotion_genres, Catalogue.recommend_movies,
    mbind, sys_bind, lift.
  destruct (Catalogue.__init__ "credentials.json" w) as [[o t] w1].
  unfold result, trace, world_of in *. simpl in *.
  destruct o as [self|]; simpl.
  - remember (recommend_movies (ext := Catalogue.external self)
                               emotion count w1) as run eqn:E.
    destruct run as [[ms tm] w2].
    unfold value, events. simpl. rewrite !app_nil_r.
    repeat split; try discriminate; trivial.
    + intros gs [= <-]. reflexivity.
    + injection H as <-. rewrite <- E. reflexivity.
    + injection H as <-. rewrite <- E. reflexivity.
    + injection H as <-. rewrite <- E. unfold pipeline_runs in *.
      rewrite omap_app, P. reflexivity.
  - rewrite !app_nil_r. repeat split; trivial; discriminate.
Qed.

End ModuleFunction.

(* ------------------------------------------------------------------ *)
(** ** The properties above on the concrete system *)

Lemma stubsys_shuffle_permutes :
  forall (l : list Movie) (w : StubSys.World),
    Permutation (random_shuffle (System := StubSys.system) l w).1 l.
Proof. intros l w. simpl. symmetry. apply Permutation_rev. Qed.

Lemma disconnected_shuffle_permutes :
  forall (l : list Movie) (w : StubSys.World),
    Permutation (random_shuffle (System := StubSys.disconnected) l w).1 l.
Proof. intros l w. simpl. symmetry. apply Permutation_rev. Qed.

Lemma search_returns_fetched_records_witness :
  let r := Catalogue.search_movies_by_genre
             (sys := StubSys.system) StubSys.recommender "Comedy" 2
             (StubSys.session []) in
  In (StubSys.film "tt003") (result r) /\
  In "tt003" (detail_requests (trace r)) /\
  link (StubSys.film "tt003") = "https://www.imdb.com/title/tt003/".
Proof.
  assert (H : In (StubSys.film "tt003")
                 (result (Catalogue.search_movies_by_genre
                            (sys := StubSys.system) StubSys.recommender
                            "Comedy" 2 (StubSys.session []))))
    by (vm_compute; right; left; reflexivity).
  split; [exact H|].
  exact (search_returns_fetched_records
           (sys := StubSys.system) StubSys.recommender "Comedy" 2
           (StubSys.session []) (StubSys.film "tt003") H).
Defined.

Lemma search_with_no_room_witness :
  0 <= 0 /\
  let r := Catalogue.search_movies_by_genre
             (sys := StubSys.system) StubSys.recommender "Adventure" 0
             (StubSys.session []) in
  result r = [] /\
  keyword_requests (trace r) = ["adventure"] /\
  detail_requests (trace r) = [].
Proof.
  split; [lia|].
  apply (search_with_no_room (sys := StubSys.system) StubSys.recommender
                             "Adventure" 0 (StubSys.session [])).
  lia.
Defined.

Lemma search_survives_failure_witness :
  hd_error (Catalogue.keywords_for "Comedy") = Some "funny" /\
  (http_get (System := StubSys.system) "http://www.omdbapi.com/"
            (ByKeyword "k3y" "funny") StubSys.offline).1 = Raised /\
  let r := Catalogue.search_movies_by_genre
             (sys := StubSys.system) StubSys.recommender "Comedy" 2
             StubSys.offline in
  result r = [] /\
  trace r = [Requested "http://www.omdbapi.com/" (ByKeyword "k3y" "funny");
             Said (MsgSearchError "Comedy")].
Proof.
  split; [reflexivity|]. split; [reflexivity|].
  apply (search_survives_failure (sys := StubSys.system) StubSys.recommender
                                 "Comedy" 2 StubSys.offline "funny");
    reflexivity.
Defined.

Lemma exit_word_ends_session_witness :
  let w := StubSys.session [InputLine " QUIT "] in
  (input (System := StubSys.system) PromptFeeling w).1 = InputLine " QUIT " /\
  str_in (lower (strip " QUIT ")) ["quit"; "exit"; "bye"; "q"] = true /\
  let r := Agent.interactive_mode (sys := StubSys.system) 1 StubSys.agent w in
  result r = Some tt /\
  trace r = [Said MsgWelcome; Asked PromptFeeling; Said MsgGoodbye] /\
  pipeline_runs (trace r) = [].
Proof.
  split; [reflexivity|]. split; [reflexivity|].
  apply (exit_word_ends_session (sys := StubSys.system) StubSys.agent 0
           (StubSys.session [InputLine " QUIT "]) " QUIT "); reflexivity.
Defined.

Lemma blank_line_is_skipped_witness :
  let w := StubSys.session [InputLine "   "; InputLine "bye"] in
  (input (System := StubSys.system) PromptFeeling w).1 = InputLine "   " /\
  blank "   " = true /\
  let r := Agent.interactive_loop (sys := StubSys.system) 2 StubSys.agent w in
  let next := Agent.interactive_loop
                (sys := StubSys.system) 1 StubSys.agent
                (input (System := StubSys.system) PromptFeeling w).2 in
  result r = result next /\
  trace r = [Asked PromptFeeling; Said MsgEmptyInput] ++ trace next.
Proof.
  split; [reflexivity|]. split; [reflexivity|].
  apply (blank_line_is_skipped (sys := StubSys.system) StubSys.agent 1
           (StubSys.session [InputLine "   "; InputLine "bye"]) "   ");
    reflexivity.
Defined.

Lemma closed_input_never_ends_witness :
  (forall (p : Prompt) (w' : StubSys.World),
      (input (System := StubSys.unattended) p w').1 = InputFailed) /\
  let r := Agent.interactive_mode (sys := StubSys.unattended) 3 StubSys.agent
                                  (StubSys.session []) in
  result r = None /\
  length (prompts (trace r)) = 3%nat /\
  pipeline_runs (trace r) = [].
Proof.
  split; [intros p w'; reflexivity|].
  apply (closed_input_never_ends (sys := StubSys.unattended) StubSys.agent 3
           (StubSys.session [])).
  intros p w'. reflexivity.
Defined.

Lemma more_means_five_witness :
  let w := StubSys.session [InputLine "happy"; InputLine " Yes "] in
  let w1 := (input (System := StubSys.system) PromptFeeling w).2 in
  let first := analyze_mood_and_recommend
                 (ext := Agent.external (sys := StubSys.system) StubSys.agent)
                 (strip "happy") 3 w1 in
  let w2 := (input (System := StubSys.system) PromptNone
                   (world_after first)).2 in
  let second := analyze_mood_and_recommend
                  (ext := Agent.external (sys := StubSys.system) StubSys.agent)
                  (strip "happy") 5 w2 in
  let r := Agent.interactive_pass (sys := StubSys.system) StubSys.agent w in
  (input (System := StubSys.system) PromptFeeling w).1 = InputLine "happy" /\
  str_in (lower (strip "happy")) ["quit"; "exit"; "bye"; "q"] = false /\
  blank "happy" = false /\
  (exists found, value first = Some found) /\
  (input (System := StubSys.system) PromptNone (world_after first)).1
  = InputLine " Yes " /\
  result r = Agent.Continue /\
  prompts (trace r) = [PromptFeeling; PromptNone] /\
  pipeline_runs (trace r) = [events first; events second].
Proof.
  cbv zeta.
  split; [reflexivity|]. split; [reflexivity|]. split; [reflexivity|].
  split; [eexists; vm_compute; reflexivity|].
  split; [vm_compute; reflexivity|].
  refine (more_means_five
            (sys := StubSys.system) StubSys.agent
            (StubSys.session [InputLine "happy"; InputLine " Yes "])
            "happy" " Yes " _ eq_refl eq_refl eq_refl _ _).
  - vm_compute. reflexivity.
  - vm_compute. reflexivity.
Defined.

Lemma main_exits_on_failed_start_witness :
  result (Agent.__init__ (sys := StubSys.system) StubSys.no_models) = Raised /\
  let r := Agent.main (sys := StubSys.system) 5 ["main.py"; "so"; "happy"]
                      StubSys.no_models in
  result r = Some 1 /\
  prompts (trace r) = [] /\
  pipeline_runs (trace r) = [].
Proof.
  split; [reflexivity|].
  apply (main_exits_on_failed_start (sys := StubSys.system) 5
           ["main.py"; "so"; "happy"] StubSys.no_models).
  reflexivity.
Defined.

Lemma main_with_arguments_witness :
  let w := StubSys.session [] in
  let argv := ["main.py"; "so"; "happy"] in
  result (Agent.__init__ (sys := StubSys.system) w) = Returned StubSys.agent /\
  (1 < length argv)%nat /\
  Agent.join (tl argv) = "so happy" /\
  let w1 := world_of (Agent.__init__ (sys := StubSys.system) w) in
  let run := analyze_mood_and_recommend
               (ext := Agent.external (sys := StubSys.system) StubSys.agent)
               "so happy" 3 w1 in
  let r := Agent.main (sys := StubSys.system) 0 argv w in
  result r = Some 0 /\
  pipeline_runs (trace r) = [events run] /\
  prompts (trace r) = [].
Proof.
  cbv zeta.
  split; [reflexivity|]. split; [simpl; lia|]. split; [reflexivity|].
  apply (main_with_arguments (sys := StubSys.system) 0
           ["main.py"; "so"; "happy"] (StubSys.session []) StubSys.agent).
  - reflexivity.
  - simpl. lia.
Defined.

Lemma prediction_list_handling_witness :
  blank "hi" = false /\
  classifier (External := Stub.external) (strip "hi") Stub.happy
  = (Returned (PredictionList [ {| label := "JOY"; score := decimal 92 100 |} ]),
     Stub.tick Stub.happy) /\
  let r := detect_emotion (ext := Stub.external) "hi" Stub.happy in
  value r = {| emotion := "joy";
               confidence := decimal 92 100;
               raw_prediction :=
                 Some {| label := "JOY"; score := decimal 92 100 |};
               normalized_emotion := "joy" |} /\
  events r = [Classified "hi"].
Proof.
  split; [reflexivity|]. split; [reflexivity|].
  exact (prediction_list_handling
           (ext := Stub.external) "hi" Stub.happy (Stub.tick Stub.happy)
           [ {| label := "JOY"; score := decimal 92 100 |} ] eq_refl eq_refl).
Defined.

Lemma negative_count_drops_from_the_end_witness :
  (forall (l : list Movie) (w' : Stub.World),
      Permutation (shuffle (External := Stub.external) l w').1 l) /\
  -1 < 0 /\
  value (recommend_movies (ext := Stub.external) "joy" (-1) Stub.happy)
  = [Stub.movie "tt003" "Third film"; Stub.movie "tt002" "Second film"] /\
  let out := value (recommend_movies (ext := Stub.external) "joy" (-1)
                                     Stub.happy) in
  let pool := unique_pool (ext := Stub.external) "joy" (-1) Stub.happy in
  let genres := get_genres_for_emotion "joy" in
  let searched := search_each (ext := Stub.external) genres
                    (movies_per_genre (-1) genres) [] Stub.happy in
  let shuffled := (shuffle (External := Stub.external) pool
                           (world_after searched)).1 in
  search_requests
    (events (recommend_movies (ext := Stub.external) "joy" (-1) Stub.happy))
  = map (fun g => (g, 2)) (get_genres_for_emotion "joy") /\
  Permutation shuffled pool /\
  out = firstn (length shuffled - Z.to_nat (- (-1))) shuffled /\
  Z.of_nat (length out) = Z.max 0 (Z.of_nat (length pool) + -1).
Proof.
  split; [exact stub_shuffle_permutes|]. split; [lia|].
  split; [vm_compute; reflexivity|].
  apply (negative_count_drops_from_the_end
           (ext := Stub.external) "joy" (-1) Stub.happy stub_shuffle_permutes).
  lia.
Defined.

Lemma degraded_detection_recommends_neutral_witness :
  raw_prediction (value (detect_emotion (ext := Stub.external)
                                        "I feel odd" Stub.broken)) = None /\
  let run := analyze_mood_and_recommend (ext := Stub.external)
                                        "I feel odd" 3 Stub.broken in
  advisory_flagged (events run) = true /\
  map fst (search_requests (events run))
  = ["Action"; "Adventure"; "Comedy"; "Drama"].
Proof.
  split; [reflexivity|].
  apply (degraded_detection_recommends_neutral
           (ext := Stub.external) "I feel odd" 3 Stub.broken).
  reflexivity.
Defined.

Lemma agent_recommends_wellformed_records_witness :
  (forall (l : list Movie) (w' : StubSys.World),
      Permutation (random_shuffle (System := StubSys.system) l w').1 l) /\
  let out := value (recommend_movies
                      (ext := Agent.external (sys := StubSys.system)
                                             StubSys.agent)
                      "joy" 3 (StubSys.session [])) in
  out = [StubSys.film "tt003"; StubSys.film "tt001"] /\
  List.NoDup (map imdb_id out) /\
  forall m : Movie,
    In m out ->
    link m = ("https://www.imdb.com/title/" ++ imdb_id m ++ "/")%string.
Proof.
  split; [exact stubsys_shuffle_permutes|].
  cbv zeta. split; [vm_compute; reflexivity|].
  exact (agent_recommends_wellformed_records
           (sys := StubSys.system) StubSys.agent "joy" 3 (StubSys.session [])
           stubsys_shuffle_permutes).
Defined.

Lemma unreachable_service_gives_no_movies_witness :
  (forall (l : list Movie) (w' : StubSys.World),
      Permutation (random_shuffle (System := StubSys.disconnected) l w').1 l) /\
  (forall (url : string) (q : Query) (w' : StubSys.World),
      (http_get (System := StubSys.disconnected) url q w').1 = Raised) /\
  let run := analyze_mood_and_recommend
               (ext := Agent.external (sys := StubSys.disconnected)
                                      StubSys.agent)
               "happy" 3 (StubSys.session []) in
  result (Agent.analyze (sys := StubSys.disconnected) StubSys.agent
                        "happy" 3 (StubSys.session [])) = None /\
  value run = None /\
  last (events run) = Some (Printed MsgNoMovies).
Proof.
  split; [exact disconnected_shuffle_permutes|].
  split; [intros url q w'; reflexivity|].
  apply (unreachable_service_gives_no_movies
           (sys := StubSys.disconnected) StubSys.agent "happy" 3
           (StubSys.session []) disconnected_shuffle_permutes).
  intros url q w'. reflexivity.
Defined.
